(** * Jinny chat relay (server.js): conversation contexts and session handlers

    A shallow embedding of [src/server.js].  The process-wide
    [userContexts] map, the requests sent upstream and the events emitted
    to sockets are threaded explicitly through a small state-and-exception
    monad; the two hosted completion services are an oracle from requests
    to outcomes, and [Date.now()] is an argument of each handler.  The
    HTTP plumbing, logging and the disconnect timer are left out. *)

From Stdlib Require Import ZArith QArith List Ascii String.
From stdpp Require Import gmap strings list fin_maps pretty.

Local Open Scope Z_scope.
Set Warnings "-register-all".

(** ** JavaScript values *)

(** A JavaScript string is a sequence of UTF-16 code units. *)
Abbreviation jsstring := (list N).

Definition lit (s : string) : jsstring :=
  (fun a => N_of_ascii a) <$> list_ascii_of_string s.

(** The values that travel over the socket and come back from the
    providers: JSON data plus [undefined] (an absent field) and [NaN].
    Numbers are the integer-valued ones. *)
Inductive jsval :=
  | JUndefined
  | JNull
  | JBool (b : bool)
  | JNum (z : Z)
  | JNaN
  | JStr (s : jsstring)
  | JArray (items : list jsval)
  | JObject (fields : list (jsstring * jsval)).

(** ToBoolean. *)
Definition truthy (v : jsval) : bool :=
  match v with
  | JUndefined | JNull | JNaN => false
  | JBool b => b
  | JNum z => negb (z =? 0)
  | JStr s => match s with [] => false | _ :: _ => true end
  | JArray _ | JObject _ => true
  end.

Definition falsy (v : jsval) : bool := negb (truthy v).

(** [typeof v === 'object'] *)
Definition typeof_object (v : jsval) : bool :=
  match v with
  | JNull | JArray _ | JObject _ => true
  | _ => false
  end.

Definition nullish (v : jsval) : bool :=
  match v with
  | JUndefined | JNull => true
  | _ => false
  end.

(** [v === s] for a string constant [s], [v === n] for a number constant. *)
Definition strict_eq_str (v : jsval) (s : jsstring) : bool :=
  match v with
  | JStr t => bool_decide (t = s)
  | _ => false
  end.

Definition strict_eq_num (v : jsval) (n : Z) : bool :=
  match v with
  | JNum z => z =? n
  | _ => false
  end.

(** Own-property lookup in an object literal. *)
Fixpoint assoc {A} (k : jsstring) (fields : list (jsstring * A)) : option A :=
  match fields with
  | [] => None
  | (k', v) :: rest => if bool_decide (k' = k) then Some v else assoc k rest
  end.

(** ** Exceptions *)

(** What the handlers read from a thrown value: [error.message],
    [error.response?.status] and [error.code]. *)
Record jserror := {
  err_message : jsval;
  err_status : jsval;
  err_code : jsval
}.

(** [new Error(msg)] and the engine's [TypeError]s carry a message only. *)
Definition Error (msg : string) : jserror :=
  {| err_message := JStr (lit msg); err_status := JUndefined; err_code := JUndefined |}.

Inductive result (A : Type) :=
  | Ok (a : A)
  | Throw (e : jserror).
Arguments Ok {A} a.
Arguments Throw {A} e.

(** ** String.prototype.trim *)

(** WhiteSpace and LineTerminator code units of ECMAScript. *)
Definition is_white_space (c : N) : bool :=
  ((c =? 0x09) || (c =? 0x0A) || (c =? 0x0B) || (c =? 0x0C) || (c =? 0x0D)
   || (c =? 0x20) || (c =? 0xA0) || (c =? 0x1680)
   || ((0x2000 <=? c) && (c <=? 0x200A))
   || (c =? 0x2028) || (c =? 0x2029) || (c =? 0x202F) || (c =? 0x205F)
   || (c =? 0x3000) || (c =? 0xFEFF))%N.

Fixpoint trim_start (s : jsstring) : jsstring :=
  match s with
  | [] => []
  | c :: rest => if is_white_space c then trim_start rest else s
  end.

Definition trim (s : jsstring) : jsstring :=
  reverse (trim_start (reverse (trim_start s))).

(** ** Turns and contexts *)

Record turn := {
  role : jsstring;
  content : jsstring;
  timestamp : option Z
}.

Definition SYSTEM_PROMPT : jsstring := lit
"You are Jinny, a warm and perceptive AI companion. Engage naturally as if in person, using conversational gestures and expressions. Keep responses concise yet meaningful.

            Key traits:
            - Speak naturally, as in a real conversation
            - Show understanding through verbal gestures
            - Build on previous context
            - Guide users to related topics
            - Adapt tone to match the user

            Interaction style:
            - Start with brief acknowledgment
            - Give clear, focused responses
            - End with relevant follow-up suggestions
            - Remember key details about the user
            - Keep technical terms simple unless user shows expertise

            Example format: You might also be interested in [related topic] - would you like to explore that?

            Remember: Focus on building rapport while being efficient with language. Suggest 1-2 relevant follow-ups based on user's interests and previous conversations.".

(** The object literal that seeds every context: no [timestamp] property. *)
Definition system_turn : turn :=
  {| role := lit "system"; content := SYSTEM_PROMPT; timestamp := None |}.

(** A value of the [userContexts] map.  [manageConversationHistory] stores
    arrays; [load-context] stores the plain object
    [{...existingContext, userPreferences: savedContext}], whose own
    properties are the copied indices and [userPreferences] (no [length],
    no array methods). *)
Inductive context :=
  | CtxArray (turns : list turn)
  | CtxObject (indexed : list turn) (userPreferences : jsval).

(** ** Upstream requests and socket events *)

Record groq_request := {
  g_messages : list jsval;
  g_model : jsstring;
  g_temperature : option Q;
  g_max_tokens : option Z;
  g_top_p : Q;
  g_stream : bool
}.

Record openai_request := {
  o_messages : list jsval;
  o_model : jsval;
  o_temperature : option Q;
  o_max_tokens : option Z;
  o_presence_penalty : Q;
  o_frequency_penalty : Q;
  o_top_p : Q;
  o_stream : bool
}.

Inductive request :=
  | GroqCreate (r : groq_request)
  | OpenAICreate (r : openai_request).

(** An event emitted to one socket. *)
Record emitted := {
  ev_to : jsstring;
  ev_name : string;
  ev_payload : jsval
}.

(** ** The world the handlers run in *)

Record world := {
  userContexts : gmap jsstring context;
  upstream : list request;
  outbox : list emitted
}.

Definition init_world : world :=
  {| userContexts := ∅; upstream := []; outbox := [] |}.

(** State and exception monad: a thrown error keeps the mutations made
    before it. *)
Definition M (A : Type) : Type := world -> result A * world.

Definition ret {A} (a : A) : M A := fun w => (Ok a, w).
Definition throw {A} (e : jserror) : M A := fun w => (Throw e, w).
Definition bind {A B} (m : M A) (k : A -> M B) : M B :=
  fun w => match m w with
           | (Ok a, w') => k a w'
           | (Throw e, w') => (Throw e, w')
           end.
Definition try_catch {A} (m : M A) (handler : jserror -> M A) : M A :=
  fun w => match m w with
           | (Ok a, w') => (Ok a, w')
           | (Throw e, w') => handler e w'
           end.
Definition lift {A} (r : result A) : M A := fun w => (r, w).

Notation "'let*' x ':=' m 'in' k" := (bind m (fun x => k))
  (at level 10, x name, m at level 100, k at level 200, only parsing).
Notation "'run' m 'then' k" := (bind m (fun _ => k))
  (at level 10, m at level 100, k at level 200, only parsing).

Definition get_contexts : M (gmap jsstring context) :=
  fun w => (Ok (userContexts w), w).
Definition put_contexts (m : gmap jsstring context) : M unit :=
  fun w => (Ok tt, {| userContexts := m; upstream := upstream w; outbox := outbox w |}).
Definition emit (to : jsstring) (name : string) (payload : jsval) : M unit :=
  fun w => (Ok tt, {| userContexts := userContexts w; upstream := upstream w;
                      outbox := outbox w ++ [{| ev_to := to; ev_name := name; ev_payload := payload |}] |}).

(** ** manageConversationHistory (server.js 35-78) *)

(** [Array.prototype.splice(start, deleteCount)] without inserted items. *)
Definition splice {A} (l : list A) (start deleteCount : nat) : list A :=
  take start l ++ drop (start + deleteCount) l.

(** [now] is the value [Date.now()] returns during the call. *)
Definition manageConversationHistory (userId : jsstring) (message : jsstring)
    (role : jsstring) (now : Z) : M (list turn) :=
  let* m := get_contexts in
  run (match m !! userId with
       | None => put_contexts (<[userId := CtxArray [system_turn]]> m)
       | Some _ => ret tt
       end) then
  let* m := get_contexts in
  match m !! userId with
  | Some (CtxArray context) =>
      let messageWithTime := {| role := role; content := message; timestamp := Some now |} in
      let context := context ++ [messageWithTime] in
      let context :=
        if bool_decide (11 < length context)%nat
        then splice context 1 (length context - 11)
        else context in
      run put_contexts (<[userId := CtxArray context]> m) then
      ret context
  | _ => throw (Error "context.push is not a function")
  end.

(** ** Property reads on received values *)

(** [v.k] for the names the server reads ([model], [final], [choices],
    [message], [content]); no built-in prototype defines any of them, so
    only own properties of an object answer.  Reading from [undefined] or
    [null] throws. *)
Definition get_prop (v : jsval) (k : string) : result jsval :=
  match v with
  | JUndefined =>
      Throw (Error (String.append "Cannot read properties of undefined (reading '"
                      (String.append k "')")))
  | JNull =>
      Throw (Error (String.append "Cannot read properties of null (reading '"
                      (String.append k "')")))
  | JObject fields => Ok (default JUndefined (assoc (lit k) fields))
  | _ => Ok JUndefined
  end.

(** [v[0]] *)
Definition get_index0 (v : jsval) : result jsval :=
  match v with
  | JUndefined => Throw (Error "Cannot read properties of undefined (reading '0')")
  | JNull => Throw (Error "Cannot read properties of null (reading '0')")
  | JArray items => Ok (default JUndefined (head items))
  | JStr (c :: _) => Ok (JStr [c])
  | JObject fields => Ok (default JUndefined (assoc (lit "0") fields))
  | _ => Ok JUndefined
  end.

(** [v.trim()]: only strings have the method; a received object can hold
    data under that name, never a function. *)
Definition call_trim (v : jsval) : result jsstring :=
  match v with
  | JStr s => Ok (trim s)
  | JUndefined => Throw (Error "Cannot read properties of undefined (reading 'trim')")
  | JNull => Throw (Error "Cannot read properties of null (reading 'trim')")
  | _ => Throw (Error "data.final.trim is not a function")
  end.

(** ToString, as used for a computed property key.  An array joins its
    elements with commas; a received object answers through
    [Object.prototype.toString] unless an own data property hides it. *)
Fixpoint to_string (v : jsval) : result jsstring :=
  match v with
  | JUndefined => Ok (lit "undefined")
  | JNull => Ok (lit "null")
  | JBool b => Ok (lit (if b then "true" else "false"))
  | JNum z => Ok (lit (pretty z))
  | JNaN => Ok (lit "NaN")
  | JStr s => Ok s
  | JArray items =>
      (fix join (l : list jsval) : result jsstring :=
         match l with
         | [] => Ok []
         | x :: rest =>
             match (if nullish x then Ok [] else to_string x) with
             | Throw e => Throw e
             | Ok s =>
                 match rest with
                 | [] => Ok s
                 | _ :: _ =>
                     match join rest with
                     | Throw e => Throw e
                     | Ok r => Ok (s ++ lit "," ++ r)
                     end
                 end
             end
         end) items
  | JObject fields =>
      match assoc (lit "toString") fields with
      | Some _ => Throw (Error "Cannot convert object to primitive value")
      | None => Ok (lit "[object Object]")
      end
  end.

(** ** AI_MODELS (server.js 18-29) *)

Record model_config := {
  provider : jsstring;
  maxTokens : Z;
  temperature : Q
}.

Definition AI_MODELS : list (jsstring * model_config) :=
  [ (lit "gpt-3.5-turbo-16k",
     {| provider := lit "openai"; maxTokens := 700; temperature := 7 # 10 |});
    (lit "llama-3.1-70b-versatile",
     {| provider := lit "groq"; maxTokens := 1024; temperature := 1 |}) ].

(** [AI_MODELS] is an ordinary object literal: a computed read that misses
    its two own keys still finds the members of [Object.prototype]. *)
Definition object_prototype_names : list jsstring :=
  lit <$> [ "constructor"; "__defineGetter__"; "__defineSetter__";
            "hasOwnProperty"; "__lookupGetter__"; "__lookupSetter__";
            "isPrototypeOf"; "propertyIsEnumerable"; "toString"; "valueOf";
            "__proto__"; "toLocaleString" ]%string.

Inductive member :=
  | OwnConfig (cfg : model_config)
  | Inherited
  | Missing.

(** [AI_MODELS[selectedModel]] *)
Definition AI_MODELS_get (selectedModel : jsval) : result member :=
  match to_string selectedModel with
  | Throw e => Throw e
  | Ok key =>
      Ok match assoc key AI_MODELS with
         | Some cfg => OwnConfig cfg
         | None =>
             if bool_decide (key ∈ object_prototype_names) then Inherited else Missing
         end
  end.

(** [modelConfig.provider], [.temperature], [.maxTokens] *)
Definition member_provider (modelConfig : member) : result jsval :=
  match modelConfig with
  | OwnConfig cfg => Ok (JStr (provider cfg))
  | Inherited => Ok JUndefined
  | Missing => Throw (Error "Cannot read properties of undefined (reading 'provider')")
  end.

Definition member_temperature (modelConfig : member) : option Q :=
  match modelConfig with
  | OwnConfig cfg => Some (temperature cfg)
  | _ => None
  end.

Definition member_maxTokens (modelConfig : member) : option Z :=
  match modelConfig with
  | OwnConfig cfg => Some (maxTokens cfg)
  | _ => None
  end.

(** ** The handlers *)

Definition hour : Z := 3600000.

Section Server.

(** The hosted completion services: what [create] settles to for a given
    request ([Ok] a fulfilled completion, [Throw] a rejection).  A handler
    is run in one step: after its [await] the code only emits an event and
    neither reads nor writes [userContexts] again. *)
Variable provider_api : request -> result jsval.

Definition create (r : request) : M jsval :=
  fun w => (provider_api r,
            {| userContexts := userContexts w;
               upstream := upstream w ++ [r];
               outbox := outbox w |}).

(** handleAIError (server.js 188-202) *)
Definition handleAIError (error : jserror) (socket_id : jsstring) : M unit :=
  let errorMessage :=
    if strict_eq_num (err_status error) 429
    then "Rate limit exceeded. Please try again in a moment."%string
    else if strict_eq_str (err_code error) (lit "ECONNREFUSED")
    then "Unable to connect to AI service. Please try again later."%string
    else "An error occurred while processing your request."%string in
  emit socket_id "error"
    (JObject [ (lit "message", JStr (lit errorMessage));
               (lit "details", err_message error) ]).

(** handleGroqResponse (server.js 205-242) *)
Definition handleGroqResponse (messages : list turn) (modelConfig : member) : M jsval :=
  try_catch
    (let* completion :=
       create (GroqCreate
         {| g_messages :=
              (fun msg => JObject [ (lit "role", JStr (role msg));
                                    (lit "content", JStr (content msg)) ])
                <$> messages;
            g_model := lit "llama-3.1-70b-versatile";
            g_temperature := member_temperature modelConfig;
            g_max_tokens := member_maxTokens modelConfig;
            g_top_p := 1;
            g_stream := false |}) in
     let* choices := lift (get_prop completion "choices") in
     let* invalid :=
       if falsy choices then ret true
       else (let* first := lift (get_index0 choices) in ret (falsy first)) in
     if (invalid : bool) then throw (Error "Invalid response from GROQ API")
     else
       let* first := lift (get_index0 choices) in
       let* message := lift (get_prop first "message") in
       lift (get_prop message "content"))
    (fun error => throw error).

(** The turn objects themselves, as the OpenAI branch passes them on. *)
Definition turn_object (t : turn) : jsval :=
  JObject ([ (lit "role", JStr (role t)); (lit "content", JStr (content t)) ]
           ++ match timestamp t with
              | Some ts => [ (lit "timestamp", JNum ts) ]
              | None => []
              end).

(** socket.on('transcript') (server.js 94-133).  [role] takes its default
    ['user'] in the call of [manageConversationHistory].  An error thrown
    outside the [try] rejects the handler's promise. *)
Definition on_transcript (socket_id : jsstring) (data : jsval) (now : Z) : M unit :=
  let* _logged := lift (get_prop data "model") in
  let* final := lift (get_prop data "final") in
  let* nonblank :=
    if truthy final
    then (let* trimmed := lift (call_trim final) in ret (truthy (JStr trimmed)))
    else ret false in
  if (nonblank : bool) then
    try_catch
      (let* trimmed := lift (call_trim final) in
       let* messages := manageConversationHistory socket_id trimmed (lit "user") now in
       let* model := lift (get_prop data "model") in
       let selectedModel :=
         if truthy model then model else JStr (lit "llama-3.1-70b-versatile") in
       let* modelConfig := lift (AI_MODELS_get selectedModel) in
       let* provider := lift (member_provider modelConfig) in
       let* response :=
         if strict_eq_str provider (lit "groq")
         then handleGroqResponse messages modelConfig
         else
           (let* completion :=
              create (OpenAICreate
                {| o_messages := turn_object <$> messages;
                   o_model := selectedModel;
                   o_temperature := member_temperature modelConfig;
                   o_max_tokens := member_maxTokens modelConfig;
                   o_presence_penalty := 6 # 10;
                   o_frequency_penalty := 3 # 10;
                   o_top_p := 9 # 10;
                   o_stream := false |}) in
            let* choices := lift (get_prop completion "choices") in
            let* first := lift (get_index0 choices) in
            let* message := lift (get_prop first "message") in
            lift (get_prop message "content")) in
       emit socket_id "gpt-response"
         (JObject [ (lit "text", response); (lit "model", selectedModel) ]))
      (fun error => handleAIError error socket_id)
  else ret tt.

(** socket.on('reset-context') (server.js 136-139) *)
Definition on_reset_context (socket_id : jsstring) : M unit :=
  let* m := get_contexts in
  run put_contexts (delete socket_id m) then
  emit socket_id "context-reset"
    (JObject [ (lit "message", JStr (lit "Conversation context has been reset")) ]).

(** socket.on('load-context') (server.js 141-151).  The spread copies the
    own enumerable properties of the stored value (all of an array's
    elements, or a stored object's indices) and [userPreferences] is then
    set, replacing an earlier one. *)
Definition on_load_context (socket_id : jsstring) (savedContext : jsval) : M unit :=
  if truthy savedContext && typeof_object savedContext then
    let* m := get_contexts in
    let mergedContext :=
      match m !! socket_id with
      | Some (CtxArray turns) => CtxObject turns savedContext
      | Some (CtxObject indexed _) => CtxObject indexed savedContext
      | None => CtxObject [] savedContext
      end in
    put_contexts (<[socket_id := mergedContext]> m)
  else ret tt.

End Server.

(** ** The periodic cleanup (server.js 160-169) *)

(** [context[context.length - 1]]: a merged object has no [length], the
    index is [NaN] and the read gives [undefined]. *)
Definition lastMessage (c : context) : option turn :=
  match c with
  | CtxArray turns => last turns
  | CtxObject _ _ => None
  end.

(** [lastMessage && (now - lastMessage.timestamp) > hour]; without a
    timestamp the difference is [NaN] and the comparison is false. *)
Definition stale (now : Z) (c : context) : bool :=
  match lastMessage c with
  | Some t =>
      match timestamp t with
      | Some ts => now - ts >? hour
      | None => false
      end
  | None => false
  end.

Definition sweep_contexts (now : Z) (m : gmap jsstring context) : gmap jsstring context :=
  map_fold (fun userId context acc => if stale now context then delete userId acc else acc) m m.

Definition sweep (now : Z) : M unit :=
  let* m := get_contexts in
  put_contexts (sweep_contexts now m).

(** Running a handler: the world it leaves. *)
Definition exec {A} (m : M A) (w : world) : world := snd (m w).

(** * Vocabulary of the statements *)

(** ** Sequences of appends *)

(** One call of [manageConversationHistory(userId, message, role)]. *)
Record append := {
  a_message : jsstring;
  a_role : jsstring;
  a_now : Z
}.

(** The turn object the call pushes. *)
Definition appended (a : append) : turn :=
  {| role := a_role a; content := a_message a; timestamp := Some (a_now a) |}.

Fixpoint append_all (userId : jsstring) (apps : list append) : M unit :=
  match apps with
  | [] => ret tt
  | a :: rest =>
      run manageConversationHistory userId (a_message a) (a_role a) (a_now a) then
      append_all userId rest
  end.

(** The last [n] elements of a list, in their order. *)
Definition lastn {A} (n : nat) (l : list A) : list A := drop (length l - n) l.

(** The turns whose role is not [system]. *)
Definition non_system (turns : list turn) : list turn :=
  filter (fun t => role t ≠ lit "system") turns.

(** ** Worlds *)

Definition with_contexts (m : gmap jsstring context) (w : world) : world :=
  {| userContexts := m; upstream := upstream w; outbox := outbox w |}.

(** The world after one more upstream request, one more emitted event. *)
Definition logged (r : request) (w : world) : world :=
  {| userContexts := userContexts w; upstream := upstream w ++ [r]; outbox := outbox w |}.

Definition sent (e : emitted) (w : world) : world :=
  {| userContexts := userContexts w; upstream := upstream w; outbox := outbox w ++ [e] |}.

(** A computation that leaves the map of contexts as it found it. *)
Definition keeps_contexts {A} (m : M A) : Prop :=
  forall w, userContexts (snd (m w)) = userContexts w.

(** ** The Groq path *)

Definition DEFAULT_MODEL : jsstring := lit "llama-3.1-70b-versatile".

(** The table entry of the default model. *)
Definition llama_config : model_config :=
  {| provider := lit "groq"; maxTokens := 1024; temperature := 1 |}.

(** The request [handleGroqResponse] builds from a turn sequence. *)
Definition groq_request_for (messages : list turn) (modelConfig : member) : request :=
  GroqCreate
    {| g_messages :=
         (fun msg => JObject [ (lit "role", JStr (role msg));
                               (lit "content", JStr (content msg)) ]) <$> messages;
       g_model := DEFAULT_MODEL;
       g_temperature := member_temperature modelConfig;
       g_max_tokens := member_maxTokens modelConfig;
       g_top_p := 1;
       g_stream := false |}.

(** What [handleGroqResponse] makes of the settled call. *)
Definition groq_outcome (settled : result jsval) : result jsval :=
  match settled with
  | Throw e => Throw e
  | Ok completion =>
      match get_prop completion "choices" with
      | Throw e => Throw e
      | Ok choices =>
          if falsy choices then Throw (Error "Invalid response from GROQ API")
          else match get_index0 choices with
               | Throw e => Throw e
               | Ok first =>
                   if falsy first then Throw (Error "Invalid response from GROQ API")
                   else match get_prop first "message" with
                        | Throw e => Throw e
                        | Ok message => get_prop message "content"
                        end
               end
      end
  end.

(** The test of [handleGroqResponse] on the response:
    [!completion.choices || !completion.choices[0]]. *)
Definition lacks_first_choice (completion : jsval) : bool :=
  match get_prop completion "choices" with
  | Ok choices =>
      falsy choices
      || match get_index0 choices with
         | Ok first => falsy first
         | Throw _ => false
         end
  | Throw _ => false
  end.

(** ** Events *)

Definition GENERIC_MESSAGE : jsstring :=
  lit "An error occurred while processing your request.".

Definition error_event (socket_id : jsstring) (message : jsstring) (details : jsval) : emitted :=
  {| ev_to := socket_id; ev_name := "error";
     ev_payload := JObject [ (lit "message", JStr message); (lit "details", details) ] |}.

Definition reply_event (socket_id : jsstring) (text model : jsval) : emitted :=
  {| ev_to := socket_id; ev_name := "gpt-response";
     ev_payload := JObject [ (lit "text", text); (lit "model", model) ] |}.

(** ** Concrete inputs *)

Definition hello_turn (now : Z) : turn :=
  {| role := lit "user"; content := lit "hello"; timestamp := Some now |}.

(** Twelve appends, user and assistant in turn. *)
Definition twelve_appends : list append :=
  (fun n => {| a_message := lit (pretty n);
               a_role := lit (if Nat.even n then "user" else "assistant");
               a_now := 1000 * Z.of_nat n |}) <$> seq 1 12.

(** A world with one context, last touched at [ts]. *)
Definition one_hello (ts : Z) : world :=
  with_contexts {[ lit "s1" := CtxArray [system_turn; hello_turn ts] ]} init_world.

(** A provider double that fulfils every call with one choice. *)
Definition completion_with (text : string) : jsval :=
  JObject [ (lit "choices",
             JArray [ JObject [ (lit "message",
                                 JObject [ (lit "content", JStr (lit text)) ]) ] ]) ].

Definition mock_provider (text : string) : request -> result jsval :=
  fun _ => Ok (completion_with text).

(** ** More of the server *)

(** The callback socket.on('disconnect') hands to [setTimeout]
    (server.js 88-90); it runs one hour after the disconnect. *)
Definition on_disconnect_timeout (socket_id : jsstring) : M unit :=
  let* m := get_contexts in
  put_contexts (delete socket_id m).

(** ** The generation step of the transcript handler *)

(** [data.model || 'llama-3.1-70b-versatile'] (server.js 100). *)
Definition select_model (model : jsval) : jsval :=
  if truthy model then model else JStr (lit "llama-3.1-70b-versatile").

(** Lines 101-121 of the transcript handler: the table lookup, the
    dispatch on the provider and the read of the reply. *)
Definition generate (provider_api : request -> result jsval)
    (messages : list turn) (selectedModel : jsval) : M jsval :=
  let* modelConfig := lift (AI_MODELS_get selectedModel) in
  let* provider := lift (member_provider modelConfig) in
  if strict_eq_str provider (lit "groq")
  then handleGroqResponse provider_api messages modelConfig
  else
    (let* completion :=
       create provider_api (OpenAICreate
         {| o_messages := turn_object <$> messages;
            o_model := selectedModel;
            o_temperature := member_temperature modelConfig;
            o_max_tokens := member_maxTokens modelConfig;
            o_presence_penalty := 6 # 10;
            o_frequency_penalty := 3 # 10;
            o_top_p := 9 # 10;
            o_stream := false |}) in
     let* choices := lift (get_prop completion "choices") in
     let* first := lift (get_index0 choices) in
     let* message := lift (get_prop first "message") in
     lift (get_prop message "content")).

(** The request of the OpenAI branch. *)
Definition openai_request_for (messages : list turn) (selectedModel : jsval)
    (modelConfig : member) : request :=
  OpenAICreate
    {| o_messages := turn_object <$> messages;
       o_model := selectedModel;
       o_temperature := member_temperature modelConfig;
       o_max_tokens := member_maxTokens modelConfig;
       o_presence_penalty := 6 # 10;
       o_frequency_penalty := 3 # 10;
       o_top_p := 9 # 10;
       o_stream := false |}.

(** What the OpenAI branch makes of the settled call:
    [completion.choices[0].message.content], unchecked. *)
Definition openai_outcome (settled : result jsval) : result jsval :=
  match settled with
  | Throw e => Throw e
  | Ok completion =>
      match get_prop completion "choices" with
      | Throw e => Throw e
      | Ok choices =>
          match get_index0 choices with
          | Throw e => Throw e
          | Ok first =>
              match get_prop first "message" with
              | Throw e => Throw e
              | Ok message => get_prop message "content"
              end
          end
      end
  end.

(** The user's turn the transcript handler appends. *)
Definition user_turn (text : jsstring) (now : Z) : turn :=
  {| role := lit "user"; content := text; timestamp := Some now |}.

(** The world with further requests sent and events emitted. *)
Definition extended (reqs : list request) (events : list emitted) (w : world) : world :=
  {| userContexts := userContexts w;
     upstream := upstream w ++ reqs;
     outbox := outbox w ++ events |}.

(** The payloads on which the transcript handler throws outside its [try]:
    [data] is [null] or [undefined], or [data.final] is truthy and has no
    [trim] method. *)
Definition bad_payload (data : jsval) : bool :=
  match get_prop data "final" with
  | Throw _ => true
  | Ok final =>
      truthy final && match final with JStr _ => false | _ => true end
  end.

(** The table entry of the OpenAI model. *)
Definition gpt_config : model_config :=
  {| provider := lit "openai"; maxTokens := 700; temperature := 7 # 10 |}.

(** A world whose connection [s1] went through load-context. *)
Definition merged_world : world :=
  with_contexts
    {[ lit "s1" := CtxObject [system_turn; hello_turn 1000]
                     (JObject [ (lit "theme", JStr (lit "dark")) ]) ]}
    init_world.

(** A rejection whose [error.response.status] is 429. *)
Definition rate_limited : jserror :=
  {| err_message := JStr (lit "429 Too Many Requests");
     err_status := JNum 429;
     err_code := JUndefined |}.

(** The turns a stored value holds, under either shape. *)
Definition stored_turns (o : option context) : list turn :=
  match o with
  | Some (CtxArray turns) => turns
  | Some (CtxObject indexed _) => indexed
  | None => []
  end.

(** The [messages] field of a request. *)
Definition request_messages (r : request) : list jsval :=
  match r with
  | GroqCreate g => g_messages g
  | OpenAICreate o => o_messages o
  end.

(** ** Runs of the server *)

(** What the server reacts to: the three socket events, the timeout a
    disconnect has set and a tick of the cleanup interval, with the time
    at which the handler reads the clock. *)
Inductive event :=
  | Transcript (socket_id : jsstring) (data : jsval) (now : Z)
  | ResetContext (socket_id : jsstring)
  | LoadContext (socket_id : jsstring) (savedContext : jsval)
  | DisconnectTimeout (socket_id : jsstring)
  | CleanupTick (now : Z).

Definition handle (provider_api : request -> result jsval) (e : event) : M unit :=
  match e with
  | Transcript socket_id data now => on_transcript provider_api socket_id data now
  | ResetContext socket_id => on_reset_context socket_id
  | LoadContext socket_id savedContext => on_load_context socket_id savedContext
  | DisconnectTimeout socket_id => on_disconnect_timeout socket_id
  | CleanupTick now => sweep now
  end.

(** The world after the events of a list, handled in order. *)
Definition run_events (provider_api : request -> result jsval)
    (events : list event) (w : world) : world :=
  fold_left (fun w e => exec (handle provider_api e) w) events w.

(** A sequence of turns as the handlers build it: the system turn, then
    between one and ten timestamped user turns with a non-empty text. *)
Definition window_shaped (turns : list turn) : Prop :=
  exists tail,
    turns = system_turn :: tail
    /\ (1 <= length tail <= 10)%nat
    /\ Forall (fun t => role t = lit "user" /\ content t ≠ [] /\ timestamp t ≠ None) tail.

Definition context_shaped (c : context) : Prop :=
  match c with
  | CtxArray turns => window_shaped turns
  | CtxObject indexed _ => indexed = [] \/ window_shaped indexed
  end.

(** * Properties *)

(** ** Lists *)

Lemma lastn_short {A} (n : nat) (l : list A) :
  (length l <= n)%nat -> lastn n l = l.
Proof.
  intros Hlen. unfold lastn.
  replace (length l - n)%nat with 0%nat by lia. reflexivity.
Qed.

Lemma lastn_length {A} (n : nat) (l : list A) :
  length (lastn n l) = Nat.min n (length l).
Proof. unfold lastn. rewrite length_drop. lia. Qed.

Lemma lastn_app_long {A} (n : nat) (l l' : list A) :
  (n <= length l')%nat -> lastn n (l ++ l') = lastn n l'.
Proof.
  intros Hlen. unfold lastn. rewrite length_app.
  rewrite drop_app_ge by lia. f_equal. lia.
Qed.

Lemma lastn_lastn_app {A} (n : nat) (l l' : list A) :
  lastn n (lastn n l ++ l') = lastn n (l ++ l').
Proof.
  destruct (decide (length l <= n)%nat) as [Hshort|Hlong].
  - by rewrite (lastn_short n l).
  - destruct (decide (n <= length l')%nat) as [Hcover|Hpart].
    + by rewrite !lastn_app_long.
    + unfold lastn at 1 3. rewrite !length_app, lastn_length.
      unfold lastn.
      rewrite (drop_app_le (drop _ l)) by (rewrite length_drop; lia).
      rewrite (drop_app_le l) by lia.
      rewrite drop_drop. do 2 f_equal. lia.
Qed.

Lemma lastn_snoc {A} (n : nat) (l : list A) (x : A) :
  (0 < n)%nat -> lastn n (l ++ [x]) = lastn (n - 1) l ++ [x].
Proof.
  intros Hn. unfold lastn. rewrite length_app. cbn [length].
  rewrite drop_app_le by lia. do 2 f_equal. lia.
Qed.

(** The trimming step keeps index 0 and the ten newest of the others. *)
Lemma trim_window (h : turn) (rest : list turn) (t : turn) :
  (let context := (h :: rest) ++ [t] in
   if bool_decide (11 < length context)%nat
   then splice context 1 (length context - 11)
   else context)
  = h :: lastn 10 (rest ++ [t]).
Proof.
  cbn zeta. change ((h :: rest) ++ [t]) with (h :: (rest ++ [t])).
  set (l := rest ++ [t]). cbn [length].
  case_bool_decide as Hlen.
  - unfold splice, lastn. cbn [take drop Nat.add app]. rewrite take_0. cbn [app].
    by f_equal.
  - rewrite lastn_short; [done | lia].
Qed.

(** ** manageConversationHistory, case by case *)

Lemma manageConversationHistory_fresh userId message role now w :
  userContexts w !! userId = None ->
  let t := {| role := role; content := message; timestamp := Some now |} in
  manageConversationHistory userId message role now w
  = (Ok [system_turn; t],
     with_contexts (<[userId := CtxArray [system_turn; t]]> (userContexts w)) w).
Proof.
  intros Hnone. unfold manageConversationHistory, bind, get_contexts, put_contexts, ret.
  cbn [userContexts upstream outbox]. rewrite Hnone. cbn [userContexts upstream outbox].
  rewrite lookup_insert_eq. cbn -[system_turn].
  rewrite insert_insert_eq. reflexivity.
Qed.

Lemma manageConversationHistory_array userId message role now w h rest :
  userContexts w !! userId = Some (CtxArray (h :: rest)) ->
  let t := {| role := role; content := message; timestamp := Some now |} in
  manageConversationHistory userId message role now w
  = (Ok (h :: lastn 10 (rest ++ [t])),
     with_contexts (<[userId := CtxArray (h :: lastn 10 (rest ++ [t]))]> (userContexts w)) w).
Proof.
  intros Hsome. unfold manageConversationHistory, bind, get_contexts, put_contexts, ret.
  cbn [userContexts upstream outbox]. rewrite Hsome. cbn [userContexts upstream outbox].
  rewrite Hsome. cbn zeta.
  pose proof (trim_window h rest {| role := role; content := message; timestamp := Some now |}) as Hw.
  cbn zeta in Hw. rewrite Hw. reflexivity.
Qed.

Lemma manageConversationHistory_object userId message role now w indexed prefs :
  userContexts w !! userId = Some (CtxObject indexed prefs) ->
  manageConversationHistory userId message role now w
  = (Throw (Error "context.push is not a function"), w).
Proof.
  intros Hsome. unfold manageConversationHistory, bind, get_contexts, put_contexts, ret, throw.
  cbn [userContexts upstream outbox]. rewrite Hsome. cbn [userContexts upstream outbox].
  rewrite Hsome. reflexivity.
Qed.

(** ** Sequences of appends *)

Lemma append_all_array userId apps : forall w h rest,
  userContexts w !! userId = Some (CtxArray (h :: rest)) ->
  apps ≠ [] ->
  append_all userId apps w
  = (Ok tt,
     with_contexts
       (<[userId := CtxArray (h :: lastn 10 (rest ++ (appended <$> apps)))]> (userContexts w)) w).
Proof.
  induction apps as [|a apps IH]; intros w h rest Hctx Hne; [done|].
  cbn [append_all]. unfold bind.
  rewrite (manageConversationHistory_array _ _ _ _ _ _ _ Hctx). cbn zeta.
  fold (appended a).
  destruct apps as [|b apps].
  - reflexivity.
  - rewrite (IH _ h (lastn 10 (rest ++ [appended a]))).
    + unfold with_contexts. cbn [userContexts upstream outbox].
      rewrite insert_insert_eq, lastn_lastn_app, <- app_assoc. reflexivity.
    + unfold with_contexts. cbn [userContexts]. apply lookup_insert_eq.
    + done.
Qed.

Lemma append_all_fresh userId apps w :
  userContexts w !! userId = None ->
  apps ≠ [] ->
  append_all userId apps w
  = (Ok tt,
     with_contexts
       (<[userId := CtxArray (system_turn :: lastn 10 (appended <$> apps))]> (userContexts w)) w).
Proof.
  intros Hnone Hne. destruct apps as [|a apps]; [done|].
  cbn [append_all]. unfold bind.
  rewrite (manageConversationHistory_fresh _ _ _ _ _ Hnone). cbn zeta.
  fold (appended a).
  destruct apps as [|b apps].
  - reflexivity.
  - rewrite (append_all_array _ _ _ system_turn [appended a]).
    + unfold with_contexts. cbn [userContexts upstream outbox].
      rewrite insert_insert_eq. reflexivity.
    + unfold with_contexts. cbn [userContexts]. apply lookup_insert_eq.
    + done.
Qed.

Lemma non_system_id turns :
  Forall (fun t => role t ≠ lit "system") turns -> non_system turns = turns.
Proof.
  induction 1 as [|t turns Ht _ IH]; [done|].
  unfold non_system in *. rewrite filter_cons_True by done. by rewrite IH.
Qed.

Lemma Forall_lastn {A} (P : A -> Prop) (n : nat) (l : list A) :
  Forall P l -> Forall P (lastn n l).
Proof. unfold lastn. apply Forall_drop. Qed.

Lemma appended_roles apps :
  Forall (fun a => a_role a ≠ lit "system") apps ->
  Forall (fun t => role t ≠ lit "system") (appended <$> apps).
Proof. intros H. apply Forall_fmap. exact H. Qed.

Lemma appended_timestamped apps :
  Forall (fun t => timestamp t ≠ None) (appended <$> apps).
Proof. apply Forall_fmap, Forall_forall. intros a _. done. Qed.

(** C2: once more than ten non-system turns have been appended to a
    connection's context (fresh, or any stored array headed by a system
    turn), the context holds exactly ten non-system turns, and they are
    the ten most recently appended in the order they were appended.  The
    statement is for every sequence longer than ten, hence after each
    further append. *)
Theorem window_keeps_latest_ten userId apps w :
  userContexts w !! userId = None
  ∨ (exists h rest, userContexts w !! userId = Some (CtxArray (h :: rest))
                    /\ role h = lit "system") ->
  Forall (fun a => a_role a ≠ lit "system") apps ->
  (10 < length apps)%nat ->
  exists turns,
    append_all userId apps w
    = (Ok tt, with_contexts (<[userId := CtxArray turns]> (userContexts w)) w)
    /\ non_system turns = lastn 10 (appended <$> apps)
    /\ length (non_system turns) = 10%nat.
Proof.
  intros Hctx Hroles Hlen.
  assert (apps ≠ []) as Hne by (intros ->; simpl in Hlen; lia).
  assert (forall h rest, role h = lit "system" ->
            non_system (h :: lastn 10 (rest ++ (appended <$> apps)))
            = lastn 10 (appended <$> apps)) as Hkeep.
  { intros h rest Hh. rewrite lastn_app_long by (rewrite length_fmap; lia).
    unfold non_system. rewrite filter_cons_False by (intros Hn; by apply Hn).
    apply non_system_id, Forall_lastn, appended_roles, Hroles. }
  assert (length (lastn 10 (appended <$> apps)) = 10%nat) as Hten
    by (rewrite lastn_length, length_fmap; lia).
  destruct Hctx as [Hnone | (h & rest & Hsome & Hh)].
  - pose proof (Hkeep system_turn [] eq_refl) as Hk. rewrite app_nil_l in Hk.
    exists (system_turn :: lastn 10 (appended <$> apps)). split; [|split].
    + by apply append_all_fresh.
    + exact Hk.
    + by rewrite Hk.
  - exists (h :: lastn 10 (rest ++ (appended <$> apps))). split; [|split].
    + by apply append_all_array.
    + by apply Hkeep.
    + by rewrite Hkeep.
Qed.

Lemma window_keeps_latest_ten_witness :
  exists turns,
    append_all (lit "s1") twelve_appends init_world
    = (Ok tt, with_contexts (<[lit "s1" := CtxArray turns]> ∅) init_world)
    /\ non_system turns = lastn 10 (appended <$> twelve_appends)
    /\ length (non_system turns) = 10%nat.
Proof.
  apply (window_keeps_latest_ten (lit "s1") twelve_appends init_world).
  - left. reflexivity.
  - unfold twelve_appends. apply Forall_fmap, Forall_forall.
    intros n _. cbn. destruct (Nat.even n); vm_compute; congruence.
  - vm_compute. lia.
Defined.

(** C3: over every sequence of appends, with any roles and contents, the
    first element of the connection's context is the seeded system turn;
    every other element carries a timestamp, so the seed occurs once and
    trimming has not removed it. *)
Theorem system_turn_stays_first userId apps w :
  (userContexts w !! userId = None /\ apps ≠ [])
  ∨ (exists tail, userContexts w !! userId = Some (CtxArray (system_turn :: tail))
                  /\ Forall (fun t => timestamp t ≠ None) tail) ->
  exists tail,
    fst (append_all userId apps w) = Ok tt
    /\ userContexts (exec (append_all userId apps) w) !! userId
       = Some (CtxArray (system_turn :: tail))
    /\ Forall (fun t => timestamp t ≠ None) tail
    /\ system_turn ∉ tail.
Proof.
  assert (forall tail, Forall (fun t => timestamp t ≠ None) tail -> system_turn ∉ tail)
    as Hseed.
  { intros tail Hts Hin. rewrite Forall_forall in Hts. by apply (Hts _ Hin). }
  intros [[Hnone Hne] | (tail & Hsome & Hts)].
  - exists (lastn 10 (appended <$> apps)).
    unfold exec. rewrite (append_all_fresh _ _ _ Hnone Hne).
    cbn [fst snd with_contexts userContexts]. rewrite lookup_insert_eq.
    pose proof (Forall_lastn _ 10 _ (appended_timestamped apps)) as Hall.
    auto.
  - destruct apps as [|a apps].
    + exists tail. cbn. auto.
    + exists (lastn 10 (tail ++ (appended <$> a :: apps))).
      unfold exec. rewrite (append_all_array _ _ _ _ _ Hsome) by done.
      cbn [fst snd with_contexts userContexts]. rewrite lookup_insert_eq.
      assert (Forall (fun t => timestamp t ≠ None)
                (lastn 10 (tail ++ (appended <$> a :: apps)))) as Hall.
      { apply Forall_lastn, Forall_app. split; [done | apply appended_timestamped]. }
      auto.
Qed.

Lemma system_turn_stays_first_witness :
  exists tail,
    fst (append_all (lit "s1") twelve_appends init_world) = Ok tt
    /\ userContexts (exec (append_all (lit "s1") twelve_appends) init_world)
         !! lit "s1" = Some (CtxArray (system_turn :: tail))
    /\ Forall (fun t => timestamp t ≠ None) tail
    /\ system_turn ∉ tail.
Proof.
  apply (system_turn_stays_first (lit "s1") twelve_appends init_world).
  left. split; [reflexivity | discriminate].
Defined.

(** ** The cleanup *)

Lemma sweep_fold_lookup (now : Z) (acc0 m : gmap jsstring context) :
  forall k,
    map_fold (fun userId context acc =>
                if stale now context then delete userId acc else acc) acc0 m !! k
    = match m !! k with
      | Some c => if stale now c then None else acc0 !! k
      | None => acc0 !! k
      end.
Proof.
  apply (map_fold_weak_ind
           (fun r m' => forall k, r !! k = match m' !! k with
                                          | Some c => if stale now c then None else acc0 !! k
                                          | None => acc0 !! k
                                          end)).
  - intros k. by rewrite lookup_empty.
  - intros i x m' r Hfree IH k. destruct (decide (i = k)) as [->|Hne].
    + rewrite lookup_insert_eq. destruct (stale now x).
      * apply lookup_delete_eq.
      * by rewrite IH, Hfree.
    + rewrite lookup_insert_ne by done. destruct (stale now x).
      * rewrite lookup_delete_ne by done. apply IH.
      * apply IH.
Qed.

Lemma sweep_contexts_lookup (now : Z) (m : gmap jsstring context) k :
  sweep_contexts now m !! k
  = match m !! k with
    | Some c => if stale now c then None else Some c
    | None => None
    end.
Proof.
  unfold sweep_contexts. rewrite sweep_fold_lookup.
  destruct (m !! k) as [c|] eqn:E; [|done]. by destruct (stale now c).
Qed.

Lemma stale_array now turns :
  stale now (CtxArray turns) = true
  <-> exists t ts, last turns = Some t /\ timestamp t = Some ts /\ now - ts > hour.
Proof.
  unfold stale, lastMessage. split.
  - destruct (last turns) as [t|]; [|done].
    destruct (timestamp t) as [ts|] eqn:Ets; [|done].
    intros Hgt%Z.gtb_lt. exists t, ts. repeat split; [done | lia].
  - intros (t & ts & -> & -> & Hgt). apply Z.gtb_lt. lia.
Qed.

(** On a stored array of turns the cleanup removes the entry exactly when
    the time since its last turn's timestamp is strictly more than one
    hour; otherwise the array is kept as it is, in particular when its
    last turn is at most one hour old and when it holds the seeded system
    turn alone. *)
Theorem sweep_discards_exactly_the_stale now w userId turns :
  userContexts w !! userId = Some (CtxArray turns) ->
  let kept := userContexts (exec (sweep now) w) !! userId in
  (kept = None
   <-> exists t ts, last turns = Some t /\ timestamp t = Some ts /\ now - ts > hour)
  /\ (kept = None \/ kept = Some (CtxArray turns))
  /\ (forall t ts, last turns = Some t -> timestamp t = Some ts ->
                   now - ts <= hour -> kept = Some (CtxArray turns))
  /\ (turns = [system_turn] -> kept = Some (CtxArray turns)).
Proof.
  intros Hctx. cbn zeta.
  unfold exec, sweep, bind, get_contexts, put_contexts. cbn [snd userContexts].
  rewrite sweep_contexts_lookup, Hctx.
  pose proof (stale_array now turns) as Hstale.
  destruct (stale now (CtxArray turns)) eqn:E.
  - split; [|split; [|split]].
    + split; [intros _; by apply Hstale | done].
    + by left.
    + intros t ts Hlast Hts Hle. apply proj1 in Hstale.
      destruct (Hstale eq_refl) as (t' & ts' & Hlast' & Hts' & Hgt).
      rewrite Hlast in Hlast'. injection Hlast' as <-.
      rewrite Hts in Hts'. injection Hts' as <-. lia.
    + intros ->. discriminate E.
  - split; [|split; [|split]].
    + split; [done | intros H; apply Hstale in H; discriminate H].
    + by right.
    + done.
    + done.
Qed.

Lemma sweep_discards_exactly_the_stale_witness :
  userContexts (exec (sweep 3601001) (one_hello 1000)) !! lit "s1" = None
  /\ userContexts (exec (sweep 3601000) (one_hello 1000)) !! lit "s1"
     = userContexts (one_hello 1000) !! lit "s1".
Proof.
  split.
  - apply (sweep_discards_exactly_the_stale 3601001 (one_hello 1000) (lit "s1")
             [system_turn; hello_turn 1000]).
    + reflexivity.
    + eexists _, 1000. repeat split; reflexivity.
  - refine (proj1 (proj2 (proj2
      (sweep_discards_exactly_the_stale 3601000 (one_hello 1000) (lit "s1")
         [system_turn; hello_turn 1000]
         eq_refl))) _ 1000 eq_refl eq_refl _).
    unfold hour. lia.
Defined.

(** C7: the cleanup at the code, on a context the server reaches by a
    transcript followed by load-context: its last turn is older than one
    hour, yet no cleanup, at whatever time, discards it; the merged object
    has no [length], so the cleanup finds no last message.  Without the
    load-context the same cleanup discards the context. *)
Theorem stale_merged_context_outlives_the_cleanup (now : Z) :
  let mock := mock_provider "hi there" in
  let hello := Transcript (lit "s1") (JObject [ (lit "final", JStr (lit "hello")) ]) 1000 in
  let saved := JObject [ (lit "theme", JStr (lit "dark")) ] in
  let merged := CtxObject [system_turn; hello_turn 1000] saved in
  userContexts (run_events mock [hello; LoadContext (lit "s1") saved] init_world)
    !! lit "s1" = Some merged
  /\ 3601001 - 1000 > hour
  /\ userContexts
       (run_events mock [hello; LoadContext (lit "s1") saved; CleanupTick 3601001]
          init_world) !! lit "s1" = Some merged
  /\ userContexts
       (run_events mock [hello; LoadContext (lit "s1") saved; CleanupTick now]
          init_world) !! lit "s1" = Some merged
  /\ userContexts (run_events mock [hello; CleanupTick 3601001] init_world)
       !! lit "s1" = None.
Proof.
  cbn zeta. split; [|split; [|split; [|split]]].
  - vm_compute. reflexivity.
  - unfold hour. lia.
  - vm_compute. reflexivity.
  - unfold run_events. cbn [fold_left handle].
    unfold exec at 1. unfold sweep, bind, get_contexts, put_contexts.
    cbn [snd userContexts]. rewrite sweep_contexts_lookup.
    replace (userContexts _ !! lit "s1")
      with (Some (CtxObject [system_turn; hello_turn 1000]
                    (JObject [ (lit "theme", JStr (lit "dark")) ])))
      by (vm_compute; reflexivity).
    reflexivity.
  - vm_compute. reflexivity.
Qed.

(** ** Reset *)

(** C9: a reset removes the connection's context in every world (also
    one that holds none for the connection), completes without an error
    and emits the confirmation; one append after it leaves exactly the
    system turn and the new turn. *)
Theorem reset_then_append socket_id w message role now :
  let w1 := exec (on_reset_context socket_id) w in
  let t := {| role := role; content := message; timestamp := Some now |} in
  on_reset_context socket_id w = (Ok tt, w1)
  /\ userContexts w1 = delete socket_id (userContexts w)
  /\ (userContexts w !! socket_id = None -> userContexts w1 = userContexts w)
  /\ outbox w1
     = outbox w ++ [ {| ev_to := socket_id; ev_name := "context-reset";
                        ev_payload :=
                          JObject [ (lit "message",
                                     JStr (lit "Conversation context has been reset")) ] |} ]
  /\ fst (manageConversationHistory socket_id message role now w1)
     = Ok [system_turn; t]
  /\ userContexts (exec (manageConversationHistory socket_id message role now) w1)
       !! socket_id
     = Some (CtxArray [system_turn; t]).
Proof.
  cbn zeta. unfold exec at 1 2 3 4 5.
  unfold on_reset_context, bind, get_contexts, put_contexts, emit.
  cbn [fst snd userContexts upstream outbox].
  repeat split.
  - intros Hnone. by apply delete_id.
  - rewrite manageConversationHistory_fresh by (cbn [userContexts]; apply lookup_delete_eq).
    reflexivity.
  - unfold exec.
    rewrite manageConversationHistory_fresh by (cbn [userContexts]; apply lookup_delete_eq).
    cbn [snd with_contexts userContexts]. apply lookup_insert_eq.
Qed.

(** ** Handlers *)

Lemma trim_start_blank s :
  Forall (fun c => is_white_space c = true) s -> trim_start s = [].
Proof. induction 1 as [|c s Hc _ IH]; [done|]. cbn [trim_start]. by rewrite Hc. Qed.

Lemma trim_blank s :
  Forall (fun c => is_white_space c = true) s -> trim s = [].
Proof. intros H. unfold trim. by rewrite (trim_start_blank s H). Qed.

Lemma get_prop_total data k v k' :
  get_prop data k = Ok v -> exists v', get_prop data k' = Ok v'.
Proof. destruct data; cbn; intros H; try discriminate H; eauto. Qed.

Lemma truthy_nonempty s : s ≠ [] -> truthy (JStr s) = true.
Proof. by destruct s. Qed.

Lemma manageConversationHistory_ok userId message role now w :
  (forall indexed prefs, userContexts w !! userId ≠ Some (CtxObject indexed prefs)) ->
  exists messages,
    manageConversationHistory userId message role now w
    = (Ok messages, with_contexts (<[userId := CtxArray messages]> (userContexts w)) w)
    /\ last messages
       = Some {| role := role; content := message; timestamp := Some now |}.
Proof.
  intros Hshape. destruct (userContexts w !! userId) as [[[|h rest]|indexed prefs]|] eqn:E.
  - exists [{| role := role; content := message; timestamp := Some now |}]. split; [|done].
    unfold manageConversationHistory, bind, get_contexts, put_contexts, ret.
    cbn [userContexts upstream outbox]. rewrite E. cbn [userContexts upstream outbox].
    rewrite E. reflexivity.
  - eexists. split; [by apply manageConversationHistory_array|].
    rewrite lastn_snoc by lia. apply (last_snoc _ (h :: _)).
  - by destruct (Hshape indexed prefs).
  - eexists. split; [by apply manageConversationHistory_fresh | done].
Qed.

Section ServerFacts.

Variable provider_api : request -> result jsval.

Lemma handleGroqResponse_run messages modelConfig w :
  handleGroqResponse provider_api messages modelConfig w
  = (groq_outcome (provider_api (groq_request_for messages modelConfig)),
     logged (groq_request_for messages modelConfig) w).
Proof.
  unfold handleGroqResponse, try_catch, bind, create, lift, ret, throw.
  fold (groq_request_for messages modelConfig).
  fold (logged (groq_request_for messages modelConfig) w).
  unfold groq_outcome.
  destruct (provider_api _) as [completion|e]; [|done].
  destruct (get_prop completion "choices") as [choices|e]; [|done].
  destruct (falsy choices); [done|].
  destruct (get_index0 choices) as [first|e]; [|done].
  destruct (falsy first); [done|].
  destruct (get_prop first "message") as [message|e]; [|done].
  by destruct (get_prop message "content").
Qed.

End ServerFacts.

(** ** What a handler can change *)

Create HintDb contexts.

Lemma keeps_ret {A} (a : A) : keeps_contexts (ret a).
Proof. by intros w. Qed.

Lemma keeps_throw {A} (e : jserror) : keeps_contexts (@throw A e).
Proof. by intros w. Qed.

Lemma keeps_lift {A} (r : result A) : keeps_contexts (lift r).
Proof. by intros w. Qed.

Lemma keeps_emit to name payload : keeps_contexts (emit to name payload).
Proof. by intros w. Qed.

Lemma keeps_create provider_api r : keeps_contexts (create provider_api r).
Proof. by intros w. Qed.

Lemma keeps_bind {A B} (m : M A) (k : A -> M B) :
  keeps_contexts m -> (forall a, keeps_contexts (k a)) -> keeps_contexts (bind m k).
Proof.
  intros Hm Hk w. unfold bind. specialize (Hm w).
  destruct (m w) as [[a|e] w1]; cbn [snd] in *; [|done].
  by rewrite Hk.
Qed.

Lemma keeps_try_catch {A} (m : M A) (handler : jserror -> M A) :
  keeps_contexts m -> (forall e, keeps_contexts (handler e)) ->
  keeps_contexts (try_catch m handler).
Proof.
  intros Hm Hh w. unfold try_catch. specialize (Hm w).
  destruct (m w) as [[a|e] w1]; cbn [snd] in *; [done|].
  by rewrite Hh.
Qed.

Lemma keeps_if {A} (b : bool) (m1 m2 : M A) :
  keeps_contexts m1 -> keeps_contexts m2 -> keeps_contexts (if b then m1 else m2).
Proof. by destruct b. Qed.

#[local] Hint Resolve keeps_ret keeps_throw keeps_lift keeps_emit keeps_create
  keeps_bind keeps_try_catch keeps_if : contexts.

Lemma keeps_handleAIError error socket_id : keeps_contexts (handleAIError error socket_id).
Proof. unfold handleAIError. auto with contexts. Qed.

Lemma keeps_handleGroqResponse provider_api messages modelConfig :
  keeps_contexts (handleGroqResponse provider_api messages modelConfig).
Proof. unfold handleGroqResponse. auto 20 with contexts. Qed.

#[local] Hint Resolve keeps_handleAIError keeps_handleGroqResponse : contexts.

Lemma manageConversationHistory_cases userId message role now w :
  (exists messages,
     manageConversationHistory userId message role now w
     = (Ok messages, with_contexts (<[userId := CtxArray messages]> (userContexts w)) w)
     /\ last messages = Some {| role := role; content := message; timestamp := Some now |})
  \/ manageConversationHistory userId message role now w
     = (Throw (Error "context.push is not a function"), w).
Proof.
  destruct (userContexts w !! userId) as [[turns|indexed prefs]|] eqn:E.
  - left. apply manageConversationHistory_ok. intros i p. by rewrite E.
  - right. by eapply manageConversationHistory_object.
  - left. apply manageConversationHistory_ok. intros i p. by rewrite E.
Qed.

Lemma try_bind_ok {A B} (m : M A) (k : A -> M B) handler w a w1 :
  m w = (Ok a, w1) -> try_catch (bind m k) handler w = try_catch (k a) handler w1.
Proof. intros H. unfold try_catch, bind. by rewrite H. Qed.

Lemma try_bind_throw {A B} (m : M A) (k : A -> M B) handler w e w1 :
  m w = (Throw e, w1) -> try_catch (bind m k) handler w = handler e w1.
Proof. intros H. unfold try_catch, bind. by rewrite H. Qed.

(** Whatever it receives, the transcript handler changes the contexts by
    at most the one append of the user's trimmed text. *)
Lemma on_transcript_contexts provider_api socket_id data now w :
  userContexts (exec (on_transcript provider_api socket_id data now) w) = userContexts w
  \/ exists s messages,
       get_prop data "final" = Ok (JStr s)
       /\ last messages
          = Some {| role := lit "user"; content := trim s; timestamp := Some now |}
       /\ userContexts (exec (on_transcript provider_api socket_id data now) w)
          = <[socket_id := CtxArray messages]> (userContexts w).
Proof.
  set (w' := exec _ w).
  assert (w' = snd (on_transcript provider_api socket_id data now w)) as Hrun
    by reflexivity.
  clearbody w'. unfold on_transcript in Hrun.
  destruct (get_prop data "model") as [model|e] eqn:Hmodel; [|left; by subst].
  destruct (get_prop data "final") as [final|e] eqn:Hfinal; [|left; by subst].
  unfold bind at 1 2 3 in Hrun. unfold lift at 1 2 in Hrun.
  destruct (truthy final) eqn:Htruthy; [|left; by subst].
  destruct final as [| | | | |s| |]; try (left; by subst).
  cbn [call_trim] in Hrun. unfold bind at 1 in Hrun.
  unfold lift at 1 in Hrun. unfold ret at 1 in Hrun.
  destruct (truthy (JStr (trim s))); [|left; by subst].
  rewrite (try_bind_ok _ _ _ w (trim s) w eq_refl) in Hrun.
  destruct (manageConversationHistory_cases socket_id (trim s) (lit "user") now w)
    as [(messages & Happend & Hlast) | Hthrow].
  - right. exists s, messages. split; [done|]. split; [done|].
    rewrite (try_bind_ok _ _ _ _ _ _ Happend) in Hrun. subst w'.
    match goal with
    | |- userContexts (snd (?m ?w1)) = _ =>
        assert (keeps_contexts m) as Hkeeps
    end.
    { apply keeps_try_catch; [|auto with contexts].
      repeat first [ apply keeps_bind; [|intros ?] | apply keeps_if
                   | solve [auto with contexts] | by intros ? ]. }
    by rewrite Hkeeps.
  - left. rewrite (try_bind_throw _ _ _ _ _ _ Hthrow) in Hrun. by subst.
Qed.

Lemma AI_MODELS_get_default : AI_MODELS_get (JStr DEFAULT_MODEL) = Ok (OwnConfig llama_config).
Proof. reflexivity. Qed.

Lemma on_transcript_groq_run provider_api socket_id data now w s model messages w1 :
  get_prop data "final" = Ok (JStr s) ->
  trim s ≠ [] ->
  get_prop data "model" = Ok model ->
  falsy model = true \/ model = JStr DEFAULT_MODEL ->
  manageConversationHistory socket_id (trim s) (lit "user") now w = (Ok messages, w1) ->
  on_transcript provider_api socket_id data now w
  = let req := groq_request_for messages (OwnConfig llama_config) in
    match groq_outcome (provider_api req) with
    | Ok response =>
        (Ok tt, sent (reply_event socket_id response (JStr DEFAULT_MODEL)) (logged req w1))
    | Throw error => handleAIError error socket_id (logged req w1)
    end.
Proof.
  intros Hfinal Hnonblank Hmodel Hdefault Happend.
  assert (s ≠ []) as Hs by (intros ->; by apply Hnonblank).
  assert ((if truthy model then model else JStr DEFAULT_MODEL) = JStr DEFAULT_MODEL) as Hsel.
  { destruct Hdefault as [Hf| ->]; [|done]. unfold falsy in Hf. by destruct (truthy model). }
  unfold on_transcript. rewrite Hmodel, Hfinal.
  unfold bind at 1 2 3. unfold lift at 1 2.
  rewrite (truthy_nonempty s Hs).
  cbn [call_trim]. unfold bind at 1. unfold lift at 1. unfold ret at 1.
  rewrite (truthy_nonempty _ Hnonblank).
  unfold try_catch, bind. unfold lift at 1. rewrite Happend.
  unfold lift at 1. cbn zeta. fold DEFAULT_MODEL. rewrite Hsel.
  unfold lift at 1. rewrite AI_MODELS_get_default.
  unfold lift at 1. cbn [member_provider].
  change (strict_eq_str (JStr (provider llama_config)) (lit "groq")) with true.
  cbn iota. rewrite handleGroqResponse_run. cbn zeta.
  destruct (groq_outcome _) as [response|error]; reflexivity.
Qed.

Lemma handleAIError_plain msg socket_id w :
  handleAIError (Error msg) socket_id w
  = (Ok tt, sent (error_event socket_id GENERIC_MESSAGE (JStr (lit msg))) w).
Proof. reflexivity. Qed.

Lemma handleAIError_emits error socket_id w :
  exists message,
    handleAIError error socket_id w
    = (Ok tt, sent (error_event socket_id message (err_message error)) w).
Proof.
  unfold handleAIError.
  destruct (strict_eq_num _ _); [eauto|]. destruct (strict_eq_str _ _); eauto.
Qed.

Lemma groq_outcome_lacking completion :
  lacks_first_choice completion = true ->
  groq_outcome (Ok completion) = Throw (Error "Invalid response from GROQ API").
Proof.
  unfold lacks_first_choice, groq_outcome.
  destruct (get_prop completion "choices") as [choices|e]; [|done].
  destruct (falsy choices); [done|]. cbn [orb].
  destruct (get_index0 choices) as [first|e]; [|done].
  by intros ->.
Qed.

(** C8: a transcript whose final text is empty or made of whitespace only
    changes nothing: no request goes upstream, no turn is appended and no
    event is emitted. *)
Theorem blank_transcript_is_ignored provider_api socket_id data now w s :
  get_prop data "final" = Ok (JStr s) ->
  Forall (fun c => is_white_space c = true) s ->
  on_transcript provider_api socket_id data now w = (Ok tt, w).
Proof.
  intros Hfinal Hblank.
  destruct (get_prop_total data "final" _ "model" Hfinal) as [model Hmodel].
  unfold on_transcript. rewrite Hmodel, Hfinal.
  unfold bind at 1 2 3. unfold lift at 1 2.
  destruct s as [|c s]; [reflexivity|].
  cbn [truthy call_trim]. rewrite (trim_blank _ Hblank). reflexivity.
Qed.

Lemma blank_transcript_is_ignored_witness :
  on_transcript (fun _ => Throw (Error "unreachable")) (lit "s1")
    (JObject [ (lit "final", JStr [0x20; 0x09; 0x0A; 0xA0; 0x3000]%N) ]) 1000 init_world
  = (Ok tt, init_world).
Proof.
  apply (blank_transcript_is_ignored _ _ _ _ _ [0x20; 0x09; 0x0A; 0xA0; 0x3000]%N).
  - reflexivity.
  - repeat constructor.
Defined.

(** C10: a transcript with a non-blank text whose model field is falsy
    (absent, null, the empty string, or any other falsy value) is served
    with the default model: the one upstream request is the Groq call for
    'llama-3.1-70b-versatile' with that entry's parameters, and a reply
    event, when one is emitted, reports that id as the model. *)
Theorem falsy_model_selects_default provider_api socket_id data now w s model :
  get_prop data "final" = Ok (JStr s) ->
  trim s ≠ [] ->
  get_prop data "model" = Ok model ->
  falsy model = true ->
  (forall indexed prefs, userContexts w !! socket_id ≠ Some (CtxObject indexed prefs)) ->
  exists messages,
    let req :=
      GroqCreate
        {| g_messages :=
             (fun msg => JObject [ (lit "role", JStr (role msg));
                                   (lit "content", JStr (content msg)) ]) <$> messages;
           g_model := lit "llama-3.1-70b-versatile";
           g_temperature := Some 1%Q;
           g_max_tokens := Some 1024;
           g_top_p := 1;
           g_stream := false |} in
    let w2 := exec (on_transcript provider_api socket_id data now) w in
    fst (manageConversationHistory socket_id (trim s) (lit "user") now w) = Ok messages
    /\ upstream w2 = upstream w ++ [req]
    /\ (forall response,
          groq_outcome (provider_api req) = Ok response ->
          outbox w2
          = outbox w ++ [reply_event socket_id response
                           (JStr (lit "llama-3.1-70b-versatile"))])
    /\ (forall e, e ∈ outbox w2 -> ev_name e = "gpt-response"%string ->
                  e ∈ outbox w
                  \/ exists response,
                      e = reply_event socket_id response
                            (JStr (lit "llama-3.1-70b-versatile"))).
Proof.
  intros Hfinal Hnonblank Hmodel Hfalsy Hshape.
  destruct (manageConversationHistory_ok socket_id (trim s) (lit "user") now w Hshape)
    as (messages & Happend & _).
  exists messages. cbn zeta. unfold exec.
  rewrite (on_transcript_groq_run _ _ _ _ _ _ _ _ _ Hfinal Hnonblank Hmodel
             (or_introl Hfalsy) Happend).
  rewrite Happend. cbn zeta.
  change (groq_request_for messages (OwnConfig llama_config))
    with (GroqCreate
            {| g_messages :=
                 (fun msg => JObject [ (lit "role", JStr (role msg));
                                       (lit "content", JStr (content msg)) ]) <$> messages;
               g_model := lit "llama-3.1-70b-versatile";
               g_temperature := Some 1%Q;
               g_max_tokens := Some 1024;
               g_top_p := 1;
               g_stream := false |}).
  set (req := GroqCreate _).
  destruct (groq_outcome (provider_api req)) as [response|error] eqn:Hout.
  - cbn [fst snd sent logged with_contexts upstream outbox]. repeat split.
    + by intros ? [= <-].
    + intros e [Hin | ->%list_elem_of_singleton]%elem_of_app _; eauto.
  - destruct (handleAIError_emits error socket_id (logged req
              (with_contexts (<[socket_id:=CtxArray messages]> (userContexts w)) w)))
      as [message ->].
    cbn [fst snd sent logged with_contexts upstream outbox]. repeat split.
    + done.
    + intros e [Hin | ->%list_elem_of_singleton]%elem_of_app Hname; [eauto|].
      discriminate Hname.
Qed.

Lemma falsy_model_selects_default_witness :
  outbox (exec (on_transcript (mock_provider "hi there") (lit "s1")
                  (JObject [ (lit "final", JStr (lit "hello")); (lit "model", JStr []) ])
                  1000) init_world)
  = [ reply_event (lit "s1") (JStr (lit "hi there"))
        (JStr (lit "llama-3.1-70b-versatile")) ].
Proof.
  destruct (falsy_model_selects_default (mock_provider "hi there") (lit "s1")
              (JObject [ (lit "final", JStr (lit "hello")); (lit "model", JStr []) ])
              1000 init_world (lit "hello") (JStr []))
    as (messages & _ & _ & Hreply & _).
  - reflexivity.
  - vm_compute. discriminate.
  - reflexivity.
  - reflexivity.
  - intros indexed prefs. cbn [init_world userContexts]. by rewrite lookup_empty.
  - exact (Hreply (JStr (lit "hi there")) eq_refl).
Defined.

(** C6: when the Groq call settles with a response that has no choices,
    or no first choice, the adapter throws its malformed-response error;
    the transcript handler completes normally and emits one error event
    whose message is the fixed generic text, the raised text going into
    the details field only. *)
Theorem groq_malformed_response_reported
    provider_api socket_id data now w s model completion :
  get_prop data "final" = Ok (JStr s) ->
  trim s ≠ [] ->
  get_prop data "model" = Ok model ->
  falsy model = true \/ model = JStr (lit "llama-3.1-70b-versatile") ->
  (forall indexed prefs, userContexts w !! socket_id ≠ Some (CtxObject indexed prefs)) ->
  (forall r, provider_api (GroqCreate r) = Ok completion) ->
  lacks_first_choice completion = true ->
  let raw := lit "Invalid response from GROQ API" in
  let generic := lit "An error occurred while processing your request." in
  let w2 := exec (on_transcript provider_api socket_id data now) w in
  (forall messages modelConfig w0,
     fst (handleGroqResponse provider_api messages modelConfig w0)
     = Throw {| err_message := JStr raw; err_status := JUndefined;
                err_code := JUndefined |})
  /\ fst (on_transcript provider_api socket_id data now w) = Ok tt
  /\ outbox w2
     = outbox w ++ [ {| ev_to := socket_id; ev_name := "error";
                        ev_payload := JObject [ (lit "message", JStr generic);
                                                (lit "details", JStr raw) ] |} ]
  /\ generic ≠ raw.
Proof.
  intros Hfinal Hnonblank Hmodel Hgroq Hshape Hsettled Hlacks. cbn zeta.
  destruct (manageConversationHistory_ok socket_id (trim s) (lit "user") now w Hshape)
    as (messages & Happend & _).
  split; [|split; [|split]].
  - intros msgs cfg w0. rewrite handleGroqResponse_run. cbn [fst].
    unfold groq_request_for. rewrite Hsettled. by apply groq_outcome_lacking.
  - rewrite (on_transcript_groq_run _ _ _ _ _ _ _ _ _ Hfinal Hnonblank Hmodel Hgroq Happend).
    cbn zeta. unfold groq_request_for at 1. rewrite Hsettled.
    rewrite (groq_outcome_lacking _ Hlacks). reflexivity.
  - unfold exec.
    rewrite (on_transcript_groq_run _ _ _ _ _ _ _ _ _ Hfinal Hnonblank Hmodel Hgroq Happend).
    cbn zeta. unfold groq_request_for at 1. rewrite Hsettled.
    rewrite (groq_outcome_lacking _ Hlacks). reflexivity.
  - vm_compute. discriminate.
Qed.

Lemma groq_malformed_response_reported_witness :
  outbox (exec (on_transcript (fun _ => Ok (JObject [ (lit "choices", JArray []) ]))
                  (lit "s1")
                  (JObject [ (lit "final", JStr (lit "hello"));
                             (lit "model", JStr (lit "llama-3.1-70b-versatile")) ])
                  1000) init_world)
  = [ error_event (lit "s1") GENERIC_MESSAGE (JStr (lit "Invalid response from GROQ API")) ].
Proof.
  refine (proj1 (proj2 (proj2
    (groq_malformed_response_reported
       (fun _ => Ok (JObject [ (lit "choices", JArray []) ])) (lit "s1")
       (JObject [ (lit "final", JStr (lit "hello"));
                  (lit "model", JStr (lit "llama-3.1-70b-versatile")) ])
       1000 init_world (lit "hello") (JStr (lit "llama-3.1-70b-versatile"))
       (JObject [ (lit "choices", JArray []) ])
       eq_refl _ eq_refl (or_intror eq_refl) _ (fun _ => eq_refl) eq_refl)))).
  - vm_compute. discriminate.
  - intros indexed prefs. cbn [init_world userContexts]. by rewrite lookup_empty.
Defined.

(** C1: the end-to-end flow at the code: the client gets the reply, and
    whatever the provider answers, the context afterwards holds the system
    turn and the user turn only; no turn with role assistant has been
    stored. *)
Theorem e2e_reply_is_not_recorded (provider_api : request -> result jsval) (now : Z) :
  let data := JObject [ (lit "final", JStr (lit "hello"));
                        (lit "model", JStr (lit "llama-3.1-70b-versatile")) ] in
  let after api := exec (on_transcript api (lit "s1") data now) init_world in
  outbox (after (mock_provider "hi there"))
  = [ reply_event (lit "s1") (JStr (lit "hi there"))
        (JStr (lit "llama-3.1-70b-versatile")) ]
  /\ userContexts (after provider_api) !! lit "s1"
     = Some (CtxArray [system_turn; hello_turn now])
  /\ Forall (fun t => role t ≠ lit "assistant") [system_turn; hello_turn now].
Proof.
  cbn zeta. split; [|split].
  - vm_compute. reflexivity.
  - unfold exec.
    rewrite (on_transcript_groq_run provider_api (lit "s1") _ now init_world
               (lit "hello") (JStr DEFAULT_MODEL) [system_turn; hello_turn now]
               (with_contexts (<[lit "s1" := CtxArray [system_turn; hello_turn now]]> ∅)
                  init_world));
      [|reflexivity | vm_compute; discriminate | reflexivity | by right | reflexivity].
    cbn zeta. destruct (groq_outcome _) as [response|error].
    + cbn [snd sent logged with_contexts userContexts]. apply lookup_insert_eq.
    + destruct (handleAIError_emits error (lit "s1")
                  (logged (groq_request_for [system_turn; hello_turn now]
                             (OwnConfig llama_config))
                     (with_contexts
                        (<[lit "s1" := CtxArray [system_turn; hello_turn now]]> ∅)
                        init_world))) as [message ->].
      cbn [snd sent logged with_contexts userContexts]. apply lookup_insert_eq.
  - repeat constructor; vm_compute; discriminate.
Qed.

(** C4: load-context at the code: the stored array of turns is replaced
    by a plain object, and the next transcript of the connection fails in
    [manageConversationHistory] before any request is sent; the client
    gets an error event and nothing is appended. *)
Theorem load_context_replaces_the_turn_array (now1 now2 : Z) :
  let mock := mock_provider "hi there" in
  let hello := JObject [ (lit "final", JStr (lit "hello")) ] in
  let again := JObject [ (lit "final", JStr (lit "again")) ] in
  let saved := JObject [ (lit "theme", JStr (lit "dark")) ] in
  let w1 := exec (on_transcript mock (lit "s1") hello now1) init_world in
  let w2 := exec (on_load_context (lit "s1") saved) w1 in
  let w3 := exec (on_transcript mock (lit "s1") again now2) w2 in
  userContexts w1 !! lit "s1" = Some (CtxArray [system_turn; hello_turn now1])
  /\ userContexts w2 !! lit "s1" = Some (CtxObject [system_turn; hello_turn now1] saved)
  /\ manageConversationHistory (lit "s1") (lit "again") (lit "user") now2 w2
     = (Throw (Error "context.push is not a function"), w2)
  /\ upstream w3 = upstream w2
  /\ userContexts w3 !! lit "s1" = userContexts w2 !! lit "s1"
  /\ outbox w3
     = outbox w2 ++ [ error_event (lit "s1") GENERIC_MESSAGE
                        (JStr (lit "context.push is not a function")) ].
Proof.
  cbn zeta. repeat split; vm_compute; reflexivity.
Qed.

Lemma load_context_rejects_non_objects socket_id savedContext w :
  truthy savedContext && typeof_object savedContext = false ->
  on_load_context socket_id savedContext w = (Ok tt, w).
Proof. intros H. unfold on_load_context. by rewrite H. Qed.

(** C5: the OpenAI branch at the code: the request carries the stored
    turn objects, and the user's turn goes upstream with its timestamp. *)
Theorem openai_request_carries_timestamp (now : Z) :
  let data := JObject [ (lit "final", JStr (lit "hello"));
                        (lit "model", JStr (lit "gpt-3.5-turbo-16k")) ] in
  let w' := exec (on_transcript (mock_provider "hi there") (lit "s1") data now) init_world in
  exists r,
    upstream w' = [OpenAICreate r]
    /\ o_messages r
       = [ JObject [ (lit "role", JStr (lit "system"));
                     (lit "content", JStr SYSTEM_PROMPT) ];
           JObject [ (lit "role", JStr (lit "user"));
                     (lit "content", JStr (lit "hello"));
                     (lit "timestamp", JNum now) ] ].
Proof.
  cbn zeta. eexists. split; vm_compute; reflexivity.
Qed.

Lemma groq_request_is_minimal messages modelConfig r :
  groq_request_for messages modelConfig = GroqCreate r ->
  Forall (fun m => exists t, t ∈ messages
                             /\ m = JObject [ (lit "role", JStr (role t));
                                              (lit "content", JStr (content t)) ])
         (g_messages r).
Proof.
  intros [= <-]. cbn [g_messages]. apply Forall_fmap, Forall_forall.
  intros t Hin. by exists t.
Qed.

(** * Further properties *)

(** ** The transcript handler, step by step *)

Lemma extended_nil w : extended [] [] w = w.
Proof. destruct w. unfold extended. cbn. by rewrite !app_nil_r. Qed.

Lemma bind_lift_ok {A B} (a : A) (k : A -> M B) w : bind (lift (Ok a)) k w = k a w.
Proof. reflexivity. Qed.

Lemma bind_lift_throw {A B} (e : jserror) (k : A -> M B) w :
  bind (lift (Throw e)) k w = (Throw e, w).
Proof. reflexivity. Qed.

Lemma on_transcript_run provider_api socket_id data now w s model messages w1 :
  get_prop data "final" = Ok (JStr s) ->
  trim s ≠ [] ->
  get_prop data "model" = Ok model ->
  manageConversationHistory socket_id (trim s) (lit "user") now w = (Ok messages, w1) ->
  on_transcript provider_api socket_id data now w
  = match generate provider_api messages (select_model model) w1 with
    | (Ok response, w2) =>
        (Ok tt, sent (reply_event socket_id response (select_model model)) w2)
    | (Throw error, w2) => handleAIError error socket_id w2
    end.
Proof.
  intros Hfinal Hnonblank Hmodel Happend.
  assert (s ≠ []) as Hs by (intros ->; by apply Hnonblank).
  unfold on_transcript. rewrite Hmodel, Hfinal.
  unfold bind at 1 2 3. unfold lift at 1 2.
  rewrite (truthy_nonempty s Hs).
  cbn [call_trim]. unfold bind at 1. unfold lift at 1. unfold ret at 1.
  rewrite (truthy_nonempty _ Hnonblank).
  rewrite (try_bind_ok _ _ _ w (trim s) w eq_refl).
  rewrite (try_bind_ok _ _ _ _ _ _ Happend).
  unfold try_catch. unfold bind at 1. unfold lift at 1. cbn zeta.
  fold (select_model model). unfold generate.
  destruct (AI_MODELS_get (select_model model)) as [modelConfig|e];
    [rewrite !bind_lift_ok | by rewrite !bind_lift_throw].
  destruct (member_provider modelConfig) as [provider|e];
    [rewrite !bind_lift_ok | by rewrite !bind_lift_throw].
  unfold bind at 1.
  match goal with
  | |- context [let (_, _) := ?m w1 in _] => destruct (m w1) as [[response|e] w2]
  end; reflexivity.
Qed.

Lemma on_transcript_append_fails provider_api socket_id data now w s model e w1 :
  get_prop data "final" = Ok (JStr s) ->
  trim s ≠ [] ->
  get_prop data "model" = Ok model ->
  manageConversationHistory socket_id (trim s) (lit "user") now w = (Throw e, w1) ->
  on_transcript provider_api socket_id data now w = handleAIError e socket_id w1.
Proof.
  intros Hfinal Hnonblank Hmodel Happend.
  assert (s ≠ []) as Hs by (intros ->; by apply Hnonblank).
  unfold on_transcript. rewrite Hmodel, Hfinal.
  unfold bind at 1 2 3. unfold lift at 1 2.
  rewrite (truthy_nonempty s Hs).
  cbn [call_trim]. unfold bind at 1. unfold lift at 1. unfold ret at 1.
  rewrite (truthy_nonempty _ Hnonblank).
  rewrite (try_bind_ok _ _ _ w (trim s) w eq_refl).
  by rewrite (try_bind_throw _ _ _ _ _ _ Happend).
Qed.

Lemma logged_extended r w : logged r w = extended [r] [] w.
Proof. unfold logged, extended. by rewrite app_nil_r. Qed.

Lemma sent_extended e reqs w : sent e (extended reqs [] w) = extended reqs [e] w.
Proof. unfold sent, extended. cbn. by rewrite app_nil_r. Qed.

Lemma generate_missing provider_api messages selectedModel w :
  AI_MODELS_get selectedModel = Ok Missing ->
  generate provider_api messages selectedModel w
  = (Throw (Error "Cannot read properties of undefined (reading 'provider')"), w).
Proof. intros H. unfold generate. by rewrite H. Qed.

Lemma generate_groq provider_api messages selectedModel w :
  AI_MODELS_get selectedModel = Ok (OwnConfig llama_config) ->
  generate provider_api messages selectedModel w
  = (groq_outcome (provider_api (groq_request_for messages (OwnConfig llama_config))),
     logged (groq_request_for messages (OwnConfig llama_config)) w).
Proof.
  intros H. unfold generate. rewrite H, bind_lift_ok. cbn [member_provider].
  rewrite bind_lift_ok.
  change (strict_eq_str (JStr (provider llama_config)) (lit "groq")) with true.
  cbn iota. apply handleGroqResponse_run.
Qed.

Lemma generate_openai provider_api messages selectedModel modelConfig provider w :
  AI_MODELS_get selectedModel = Ok modelConfig ->
  member_provider modelConfig = Ok provider ->
  strict_eq_str provider (lit "groq") = false ->
  generate provider_api messages selectedModel w
  = (openai_outcome (provider_api (openai_request_for messages selectedModel modelConfig)),
     logged (openai_request_for messages selectedModel modelConfig) w).
Proof.
  intros Hget Hprov Hne. unfold generate.
  rewrite Hget, bind_lift_ok, Hprov, bind_lift_ok, Hne.
  fold (openai_request_for messages selectedModel modelConfig).
  unfold bind at 1. unfold create.
  fold (logged (openai_request_for messages selectedModel modelConfig) w).
  unfold openai_outcome.
  destruct (provider_api _) as [completion|e]; [|done].
  destruct (get_prop completion "choices") as [choices|e];
    [rewrite bind_lift_ok | by rewrite bind_lift_throw].
  destruct (get_index0 choices) as [first|e];
    [rewrite bind_lift_ok | by rewrite bind_lift_throw].
  destruct (get_prop first "message") as [message|e];
    [rewrite bind_lift_ok | by rewrite bind_lift_throw].
  reflexivity.
Qed.

(** The generation step sends at most one request, emits nothing and
    leaves the contexts alone. *)
Lemma generate_effects provider_api messages selectedModel w :
  exists r reqs,
    generate provider_api messages selectedModel w = (r, extended reqs [] w)
    /\ (length reqs <= 1)%nat.
Proof.
  destruct (AI_MODELS_get selectedModel) as [modelConfig|e] eqn:Hget.
  - destruct (member_provider modelConfig) as [provider|e] eqn:Hprov.
    + destruct (strict_eq_str provider (lit "groq")) eqn:Hgroq.
      * eexists _, [groq_request_for messages modelConfig]. split; [|cbn; lia].
        unfold generate. rewrite Hget, bind_lift_ok, Hprov, bind_lift_ok, Hgroq.
        by rewrite handleGroqResponse_run, logged_extended.
      * eexists _, [_]. split; [|cbn; lia].
        by rewrite (generate_openai _ _ _ _ _ _ Hget Hprov Hgroq), logged_extended.
    + exists (Throw e), []. split; [|cbn; lia].
      unfold generate. by rewrite Hget, bind_lift_ok, Hprov, bind_lift_throw, extended_nil.
  - exists (Throw e), []. split; [|cbn; lia].
    unfold generate. by rewrite Hget, bind_lift_throw, extended_nil.
Qed.

Lemma on_transcript_string_completes provider_api socket_id data now w s :
  get_prop data "final" = Ok (JStr s) ->
  fst (on_transcript provider_api socket_id data now w) = Ok tt.
Proof.
  intros Hfinal.
  destruct (get_prop_total data "final" _ "model" Hfinal) as [model Hmodel].
  destruct (decide (trim s = [])) as [Hblank|Hnonblank].
  - unfold on_transcript. rewrite Hmodel, Hfinal.
    unfold bind at 1 2 3. unfold lift at 1 2.
    destruct s as [|c s]; [done|]. cbn [truthy call_trim]. by rewrite Hblank.
  - destruct (manageConversationHistory_cases socket_id (trim s) (lit "user") now w)
      as [(messages & Happend & _) | Hthrow].
    + rewrite (on_transcript_run _ _ _ _ _ _ _ _ _ Hfinal Hnonblank Hmodel Happend).
      destruct (generate _ _ _ _) as [[response|error] w2]; [done|].
      by destruct (handleAIError_emits error socket_id w2) as [message ->].
    + rewrite (on_transcript_append_fails _ _ _ _ _ _ _ _ _ Hfinal Hnonblank Hmodel Hthrow).
      by destruct (handleAIError_emits (Error "context.push is not a function")
                     socket_id w) as [message ->].
Qed.

(** X1: a transcript with a non-blank text always completes and is
    answered exactly once: one event, a reply or an error, goes to the
    sending socket, and at most one request goes upstream. *)
Theorem transcript_is_answered_once provider_api socket_id data now w s :
  get_prop data "final" = Ok (JStr s) ->
  trim s ≠ [] ->
  exists reqs e,
    fst (on_transcript provider_api socket_id data now w) = Ok tt
    /\ upstream (exec (on_transcript provider_api socket_id data now) w)
       = upstream w ++ reqs
    /\ (length reqs <= 1)%nat
    /\ outbox (exec (on_transcript provider_api socket_id data now) w)
       = outbox w ++ [e]
    /\ ev_to e = socket_id
    /\ (ev_name e = "gpt-response"%string \/ ev_name e = "error"%string).
Proof.
  intros Hfinal Hnonblank. unfold exec.
  destruct (get_prop_total data "final" _ "model" Hfinal) as [model Hmodel].
  destruct (manageConversationHistory_cases socket_id (trim s) (lit "user") now w)
    as [(messages & Happend & _) | Hthrow].
  - rewrite (on_transcript_run _ _ _ _ _ _ _ _ _ Hfinal Hnonblank Hmodel Happend).
    destruct (generate_effects provider_api messages (select_model model)
                (with_contexts (<[socket_id:=CtxArray messages]> (userContexts w)) w))
      as (r & reqs & -> & Hlen).
    exists reqs. destruct r as [response|error].
    + eexists. cbn [fst snd sent extended with_contexts upstream outbox].
      rewrite app_nil_r. repeat split; [done|]. by left.
    + destruct (handleAIError_emits error socket_id
                  (extended reqs []
                     (with_contexts (<[socket_id:=CtxArray messages]> (userContexts w)) w)))
        as [message ->].
      eexists. cbn [fst snd sent extended with_contexts upstream outbox].
      rewrite app_nil_r. repeat split; [done|]. by right.
  - rewrite (on_transcript_append_fails _ _ _ _ _ _ _ _ _ Hfinal Hnonblank Hmodel Hthrow).
    destruct (handleAIError_emits (Error "context.push is not a function") socket_id w)
      as [message ->].
    exists [], (error_event socket_id message
                  (err_message (Error "context.push is not a function"))).
    cbn [fst snd sent upstream outbox length]. rewrite app_nil_r.
    repeat split; [lia|]. by right.
Qed.

Lemma transcript_is_answered_once_witness :
  exists reqs e,
    fst (on_transcript (mock_provider "hi there") (lit "s1")
           (JObject [ (lit "final", JStr (lit " hello ")) ]) 1000 init_world) = Ok tt
    /\ upstream (exec (on_transcript (mock_provider "hi there") (lit "s1")
                         (JObject [ (lit "final", JStr (lit " hello ")) ]) 1000) init_world)
       = upstream init_world ++ reqs
    /\ (length reqs <= 1)%nat
    /\ outbox (exec (on_transcript (mock_provider "hi there") (lit "s1")
                       (JObject [ (lit "final", JStr (lit " hello ")) ]) 1000) init_world)
       = outbox init_world ++ [e]
    /\ ev_to e = lit "s1"
    /\ (ev_name e = "gpt-response"%string \/ ev_name e = "error"%string).
Proof.
  apply (transcript_is_answered_once (mock_provider "hi there") (lit "s1")
           (JObject [ (lit "final", JStr (lit " hello ")) ]) 1000 init_world
           (lit " hello ")).
  - reflexivity.
  - vm_compute. discriminate.
Defined.



(** X3: once load-context has stored its object for a connection, every
    non-blank transcript of that connection fails at the append: nothing
    is recorded, nothing is sent upstream, and the client gets the
    generic error with the engine's text as details. *)
Theorem merged_context_fails_every_transcript
    provider_api socket_id data now w s indexed prefs :
  get_prop data "final" = Ok (JStr s) ->
  trim s ≠ [] ->
  userContexts w !! socket_id = Some (CtxObject indexed prefs) ->
  on_transcript provider_api socket_id data now w
  = (Ok tt,
     sent (error_event socket_id GENERIC_MESSAGE
             (JStr (lit "context.push is not a function"))) w).
Proof.
  intros Hfinal Hnonblank Hctx.
  destruct (get_prop_total data "final" _ "model" Hfinal) as [model Hmodel].
  rewrite (on_transcript_append_fails _ _ _ _ _ _ _ _ _ Hfinal Hnonblank Hmodel
             (manageConversationHistory_object _ _ _ _ _ _ _ Hctx)).
  apply handleAIError_plain.
Qed.

Lemma merged_context_fails_every_transcript_witness :
  on_transcript (mock_provider "hi there") (lit "s1")
    (JObject [ (lit "final", JStr (lit "again")) ]) 2000 merged_world
  = (Ok tt,
     sent (error_event (lit "s1") GENERIC_MESSAGE
             (JStr (lit "context.push is not a function"))) merged_world).
Proof.
  apply (merged_context_fails_every_transcript (mock_provider "hi there") (lit "s1")
           (JObject [ (lit "final", JStr (lit "again")) ]) 2000 merged_world
           (lit "again") [system_turn; hello_turn 1000]
           (JObject [ (lit "theme", JStr (lit "dark")) ])).
  - reflexivity.
  - vm_compute. discriminate.
  - reflexivity.
Defined.

(** X4: the transcript handler throws (its promise rejects) exactly on a
    payload that is null or undefined or whose final field is truthy
    without being a string; it then has changed nothing and emitted
    nothing.  On every other payload it completes. *)
Theorem transcript_rejects_exactly_bad_payloads provider_api socket_id data now w :
  ((exists e, fst (on_transcript provider_api socket_id data now w) = Throw e)
   <-> bad_payload data = true)
  /\ (fst (on_transcript provider_api socket_id data now w) = Ok tt
      <-> bad_payload data = false)
  /\ (bad_payload data = true ->
      exec (on_transcript provider_api socket_id data now) w = w).
Proof.
  assert (bad_payload data = true ->
          (exists e, on_transcript provider_api socket_id data now w = (Throw e, w)))
    as Hbad.
  { unfold bad_payload.
    destruct (get_prop data "final") as [final|e] eqn:Hfinal.
    - destruct (get_prop_total data "final" _ "model" Hfinal) as [model Hmodel].
      intros [Htruthy Hkind]%andb_true_iff.
      unfold on_transcript. rewrite Hmodel, Hfinal.
      unfold bind at 1 2 3. unfold lift at 1 2. rewrite Htruthy.
      destruct final; try discriminate Htruthy; try discriminate Hkind; cbn; eauto.
    - intros _.
      assert (exists e', get_prop data "model" = Throw e') as [e' Hmodel]
        by (destruct data; try discriminate Hfinal; cbn; eauto).
      unfold on_transcript. rewrite Hmodel. cbn. eauto. }
  assert (bad_payload data = false ->
          fst (on_transcript provider_api socket_id data now w) = Ok tt) as Hgood.
  { unfold bad_payload.
    destruct (get_prop data "final") as [final|e] eqn:Hfinal; [|done].
    destruct (get_prop_total data "final" _ "model" Hfinal) as [model Hmodel].
    destruct (truthy final) eqn:Htruthy.
    - destruct final; try discriminate; intros _.
      by eapply on_transcript_string_completes.
    - intros _. unfold on_transcript. rewrite Hmodel, Hfinal.
      unfold bind at 1 2 3. unfold lift at 1 2. by rewrite Htruthy. }
  destruct (bad_payload data) eqn:Hpayload.
  - destruct (Hbad eq_refl) as [e He]. unfold exec. rewrite He. cbn [fst snd].
    split; [split; [done | eauto] | split; [split; [done | done] | done]].
  - rewrite (Hgood eq_refl).
    split; [split; [by intros [e He] | done] | split; [done | done]].
Qed.

Lemma select_model_string k : k ≠ [] -> select_model (JStr k) = JStr k.
Proof. by destruct k. Qed.

Lemma AI_MODELS_get_missing k :
  assoc k AI_MODELS = None -> k ∉ object_prototype_names ->
  AI_MODELS_get (JStr k) = Ok Missing.
Proof.
  intros Hown Hproto. unfold AI_MODELS_get. cbn [to_string]. rewrite Hown.
  by rewrite bool_decide_eq_false_2.
Qed.

Lemma AI_MODELS_get_inherited k :
  k ∈ object_prototype_names -> AI_MODELS_get (JStr k) = Ok Inherited.
Proof.
  intros Hin. unfold AI_MODELS_get. cbn [to_string].
  rewrite (bool_decide_eq_true_2 _ Hin).
  unfold object_prototype_names in Hin. cbn [fmap list_fmap] in Hin.
  repeat (apply elem_of_cons in Hin as [-> | Hin]; [reflexivity|]).
  by apply elem_of_nil in Hin.
Qed.

Lemma object_prototype_names_nonempty k : k ∈ object_prototype_names -> k ≠ [].
Proof.
  intros Hin ->. unfold object_prototype_names in Hin. cbn [fmap list_fmap] in Hin.
  repeat (apply elem_of_cons in Hin as [Hin | Hin]; [discriminate Hin|]).
  by apply elem_of_nil in Hin.
Qed.

(** X5: a model id that is neither a key of the table nor a member of
    [Object.prototype] is not guarded: the lookup gives [undefined], the
    read of its provider throws, and the client gets the generic error.
    No request is sent, and the user's turn has already been recorded. *)
Theorem unknown_model_is_reported provider_api socket_id data now w s k :
  get_prop data "final" = Ok (JStr s) ->
  trim s ≠ [] ->
  get_prop data "model" = Ok (JStr k) ->
  k ≠ [] ->
  assoc k AI_MODELS = None ->
  k ∉ object_prototype_names ->
  (forall indexed prefs, userContexts w !! socket_id ≠ Some (CtxObject indexed prefs)) ->
  exists messages,
    on_transcript provider_api socket_id data now w
    = (Ok tt,
       sent (error_event socket_id GENERIC_MESSAGE
               (JStr (lit "Cannot read properties of undefined (reading 'provider')")))
         (with_contexts (<[socket_id := CtxArray messages]> (userContexts w)) w))
    /\ last messages = Some (user_turn (trim s) now).
Proof.
  intros Hfinal Hnonblank Hmodel Hk Hown Hproto Hshape.
  destruct (manageConversationHistory_ok socket_id (trim s) (lit "user") now w Hshape)
    as (messages & Happend & Hlast).
  exists messages. split; [|done].
  rewrite (on_transcript_run _ _ _ _ _ _ _ _ _ Hfinal Hnonblank Hmodel Happend).
  rewrite (select_model_string k Hk).
  rewrite (generate_missing _ _ _ _ (AI_MODELS_get_missing k Hown Hproto)).
  apply handleAIError_plain.
Qed.

Lemma unknown_model_is_reported_witness :
  exists messages,
    on_transcript (mock_provider "hi there") (lit "s1")
      (JObject [ (lit "final", JStr (lit "hello")); (lit "model", JStr (lit "gpt-4")) ])
      1000 init_world
    = (Ok tt,
       sent (error_event (lit "s1") GENERIC_MESSAGE
               (JStr (lit "Cannot read properties of undefined (reading 'provider')")))
         (with_contexts (<[lit "s1" := CtxArray messages]> (userContexts init_world))
            init_world))
    /\ last messages = Some (user_turn (trim (lit "hello")) 1000).
Proof.
  apply (unknown_model_is_reported (mock_provider "hi there") (lit "s1")
           (JObject [ (lit "final", JStr (lit "hello")); (lit "model", JStr (lit "gpt-4")) ])
           1000 init_world (lit "hello") (lit "gpt-4")).
  - reflexivity.
  - vm_compute. discriminate.
  - reflexivity.
  - vm_compute. discriminate.
  - reflexivity.
  - apply (bool_decide_eq_false_1 (lit "gpt-4" ∈ object_prototype_names)). reflexivity.
  - intros indexed prefs. cbn [init_world userContexts]. by rewrite lookup_empty.
Defined.

(** X6: a model id that names a member of [Object.prototype] (such as
    'toString' or 'constructor') passes the lookup: the handler takes the
    OpenAI branch and sends a request whose model is that name and whose
    temperature and max_tokens are undefined. *)
Theorem prototype_named_model_reaches_openai provider_api socket_id data now w s k :
  get_prop data "final" = Ok (JStr s) ->
  trim s ≠ [] ->
  get_prop data "model" = Ok (JStr k) ->
  k ∈ object_prototype_names ->
  (forall indexed prefs, userContexts w !! socket_id ≠ Some (CtxObject indexed prefs)) ->
  exists messages,
    fst (manageConversationHistory socket_id (trim s) (lit "user") now w) = Ok messages
    /\ upstream (exec (on_transcript provider_api socket_id data now) w)
       = upstream w
         ++ [ OpenAICreate
                {| o_messages := turn_object <$> messages;
                   o_model := JStr k;
                   o_temperature := None;
                   o_max_tokens := None;
                   o_presence_penalty := 6 # 10;
                   o_frequency_penalty := 3 # 10;
                   o_top_p := 9 # 10;
                   o_stream := false |} ].
Proof.
  intros Hfinal Hnonblank Hmodel Hk Hshape.
  destruct (manageConversationHistory_ok socket_id (trim s) (lit "user") now w Hshape)
    as (messages & Happend & Hlast).
  exists messages. rewrite Happend. split; [done|]. unfold exec.
  rewrite (on_transcript_run _ _ _ _ _ _ _ _ _ Hfinal Hnonblank Hmodel Happend).
  rewrite (select_model_string k (object_prototype_names_nonempty k Hk)).
  rewrite (generate_openai _ _ _ Inherited JUndefined _
             (AI_MODELS_get_inherited k Hk) eq_refl eq_refl).
  destruct (openai_outcome _) as [response|error]; [done|].
  by destruct (handleAIError_emits error socket_id
                 (logged (openai_request_for messages (JStr k) Inherited)
                    (with_contexts (<[socket_id:=CtxArray messages]> (userContexts w)) w)))
    as [message ->].
Qed.

Lemma prototype_named_model_reaches_openai_witness :
  exists messages,
    fst (manageConversationHistory (lit "s1") (trim (lit "hello")) (lit "user") 1000
           init_world) = Ok messages
    /\ upstream (exec (on_transcript (mock_provider "hi there") (lit "s1")
                         (JObject [ (lit "final", JStr (lit "hello"));
                                    (lit "model", JStr (lit "toString")) ]) 1000)
                   init_world)
       = upstream init_world
         ++ [ OpenAICreate
                {| o_messages := turn_object <$> messages;
                   o_model := JStr (lit "toString");
                   o_temperature := None;
                   o_max_tokens := None;
                   o_presence_penalty := 6 # 10;
                   o_frequency_penalty := 3 # 10;
                   o_top_p := 9 # 10;
                   o_stream := false |} ].
Proof.
  apply (prototype_named_model_reaches_openai (mock_provider "hi there") (lit "s1")
           (JObject [ (lit "final", JStr (lit "hello"));
                      (lit "model", JStr (lit "toString")) ]) 1000 init_world
           (lit "hello") (lit "toString")).
  - reflexivity.
  - vm_compute. discriminate.
  - reflexivity.
  - apply (bool_decide_eq_true_1 (lit "toString" ∈ object_prototype_names)). reflexivity.
  - intros indexed prefs. cbn [init_world userContexts]. by rewrite lookup_empty.
Defined.

Lemma member_provider_own cfg : member_provider (OwnConfig cfg) = Ok (JStr (provider cfg)).
Proof. reflexivity. Qed.

(** On a table entry the generation step sends one request and hands a
    rejection of the call on unchanged. *)
Lemma generate_rejected provider_api messages selectedModel cfg error w :
  AI_MODELS_get selectedModel = Ok (OwnConfig cfg) ->
  (forall r, provider_api r = Throw error) ->
  exists req,
    generate provider_api messages selectedModel w = (Throw error, logged req w).
Proof.
  intros Hget Hrejects.
  destruct (strict_eq_str (JStr (provider cfg)) (lit "groq")) eqn:Hgroq.
  - eexists. unfold generate.
    rewrite Hget, bind_lift_ok, member_provider_own, bind_lift_ok, Hgroq.
    rewrite handleGroqResponse_run. by rewrite Hrejects.
  - eexists. rewrite (generate_openai _ _ _ _ _ _ Hget (member_provider_own cfg) Hgroq).
    by rewrite Hrejects.
Qed.

(** X7: when the provider call is rejected, the handler completes and
    reports it once: the message is the rate-limit text for status 429,
    else the connection text for code ECONNREFUSED, else the generic
    text; the details carry the rejection's own message; one request was
    sent and the user's turn stays recorded. *)
Theorem provider_rejection_is_classified
    provider_api socket_id data now w s model cfg error :
  get_prop data "final" = Ok (JStr s) ->
  trim s ≠ [] ->
  get_prop data "model" = Ok model ->
  AI_MODELS_get (select_model model) = Ok (OwnConfig cfg) ->
  (forall indexed prefs, userContexts w !! socket_id ≠ Some (CtxObject indexed prefs)) ->
  (forall r, provider_api r = Throw error) ->
  exists messages req,
    on_transcript provider_api socket_id data now w
    = (Ok tt,
       sent (error_event socket_id
               (if strict_eq_num (err_status error) 429
                then lit "Rate limit exceeded. Please try again in a moment."
                else if strict_eq_str (err_code error) (lit "ECONNREFUSED")
                then lit "Unable to connect to AI service. Please try again later."
                else lit "An error occurred while processing your request.")
               (err_message error))
         (logged req
            (with_contexts (<[socket_id := CtxArray messages]> (userContexts w)) w)))
    /\ last messages = Some (user_turn (trim s) now).
Proof.
  intros Hfinal Hnonblank Hmodel Hget Hshape Hrejects.
  destruct (manageConversationHistory_ok socket_id (trim s) (lit "user") now w Hshape)
    as (messages & Happend & Hlast).
  destruct (generate_rejected provider_api messages (select_model model) cfg error
              (with_contexts (<[socket_id:=CtxArray messages]> (userContexts w)) w)
              Hget Hrejects) as [req Hgen].
  exists messages, req. split; [|done].
  rewrite (on_transcript_run _ _ _ _ _ _ _ _ _ Hfinal Hnonblank Hmodel Happend), Hgen.
  unfold handleAIError, emit, sent, error_event.
  destruct (strict_eq_num (err_status error) 429); [done|].
  by destruct (strict_eq_str (err_code error) (lit "ECONNREFUSED")).
Qed.

Lemma provider_rejection_is_classified_witness :
  exists messages req,
    on_transcript (fun _ => Throw rate_limited) (lit "s1")
      (JObject [ (lit "final", JStr (lit "hello"));
                 (lit "model", JStr (lit "gpt-3.5-turbo-16k")) ]) 1000 init_world
    = (Ok tt,
       sent (error_event (lit "s1")
               (lit "Rate limit exceeded. Please try again in a moment.")
               (JStr (lit "429 Too Many Requests")))
         (logged req
            (with_contexts (<[lit "s1" := CtxArray messages]> (userContexts init_world))
               init_world)))
    /\ last messages = Some (user_turn (trim (lit "hello")) 1000).
Proof.
  apply (provider_rejection_is_classified (fun _ => Throw rate_limited) (lit "s1")
           (JObject [ (lit "final", JStr (lit "hello"));
                      (lit "model", JStr (lit "gpt-3.5-turbo-16k")) ]) 1000 init_world
           (lit "hello") (JStr (lit "gpt-3.5-turbo-16k")) gpt_config rate_limited).
  - reflexivity.
  - vm_compute. discriminate.
  - reflexivity.
  - reflexivity.
  - intros indexed prefs. cbn [init_world userContexts]. by rewrite lookup_empty.
  - reflexivity.
Defined.

(** X8: the OpenAI model: the request carries the stored turns, the
    requested id and the parameters of its table entry with the fixed
    penalties; when the response has a first choice, its content is sent
    back with that id as the model. *)
Theorem openai_model_is_served provider_api socket_id data now w s text :
  get_prop data "final" = Ok (JStr s) ->
  trim s ≠ [] ->
  get_prop data "model" = Ok (JStr (lit "gpt-3.5-turbo-16k")) ->
  (forall indexed prefs, userContexts w !! socket_id ≠ Some (CtxObject indexed prefs)) ->
  (forall r, openai_outcome (provider_api (OpenAICreate r)) = Ok text) ->
  exists messages,
    fst (manageConversationHistory socket_id (trim s) (lit "user") now w) = Ok messages
    /\ upstream (exec (on_transcript provider_api socket_id data now) w)
       = upstream w
         ++ [ OpenAICreate
                {| o_messages := turn_object <$> messages;
                   o_model := JStr (lit "gpt-3.5-turbo-16k");
                   o_temperature := Some (7 # 10);
                   o_max_tokens := Some 700;
                   o_presence_penalty := 6 # 10;
                   o_frequency_penalty := 3 # 10;
                   o_top_p := 9 # 10;
                   o_stream := false |} ]
    /\ outbox (exec (on_transcript provider_api socket_id data now) w)
       = outbox w ++ [ reply_event socket_id text (JStr (lit "gpt-3.5-turbo-16k")) ].
Proof.
  intros Hfinal Hnonblank Hmodel Hshape Hsettled.
  destruct (manageConversationHistory_ok socket_id (trim s) (lit "user") now w Hshape)
    as (messages & Happend & Hlast).
  exists messages. rewrite Happend. split; [done|]. unfold exec.
  rewrite (on_transcript_run _ _ _ _ _ _ _ _ _ Hfinal Hnonblank Hmodel Happend).
  rewrite (generate_openai _ _ (select_model (JStr (lit "gpt-3.5-turbo-16k")))
             (OwnConfig gpt_config) (JStr (lit "openai")) _ eq_refl eq_refl eq_refl).
  unfold openai_request_for. rewrite Hsettled. split; reflexivity.
Qed.

Lemma openai_model_is_served_witness :
  exists messages,
    fst (manageConversationHistory (lit "s1") (trim (lit "hello")) (lit "user") 1000
           init_world) = Ok messages
    /\ upstream (exec (on_transcript (mock_provider "hi there") (lit "s1")
                         (JObject [ (lit "final", JStr (lit "hello"));
                                    (lit "model", JStr (lit "gpt-3.5-turbo-16k")) ]) 1000)
                   init_world)
       = upstream init_world
         ++ [ OpenAICreate
                {| o_messages := turn_object <$> messages;
                   o_model := JStr (lit "gpt-3.5-turbo-16k");
                   o_temperature := Some (7 # 10);
                   o_max_tokens := Some 700;
                   o_presence_penalty := 6 # 10;
                   o_frequency_penalty := 3 # 10;
                   o_top_p := 9 # 10;
                   o_stream := false |} ]
    /\ outbox (exec (on_transcript (mock_provider "hi there") (lit "s1")
                       (JObject [ (lit "final", JStr (lit "hello"));
                                  (lit "model", JStr (lit "gpt-3.5-turbo-16k")) ]) 1000)
                 init_world)
       = outbox init_world
         ++ [ reply_event (lit "s1") (JStr (lit "hi there"))
                (JStr (lit "gpt-3.5-turbo-16k")) ].
Proof.
  apply (openai_model_is_served (mock_provider "hi there") (lit "s1")
           (JObject [ (lit "final", JStr (lit "hello"));
                      (lit "model", JStr (lit "gpt-3.5-turbo-16k")) ]) 1000 init_world
           (lit "hello") (JStr (lit "hi there"))).
  - reflexivity.
  - vm_compute. discriminate.
  - reflexivity.
  - intros indexed prefs. cbn [init_world userContexts]. by rewrite lookup_empty.
  - reflexivity.
Defined.

Lemma get_prop_falsy v k :
  falsy v = true ->
  (exists msg, get_prop v k = Throw (Error msg)) \/ get_prop v k = Ok JUndefined.
Proof. destruct v; cbn; try discriminate; eauto. Qed.

Lemma get_index0_falsy v :
  falsy v = true ->
  (exists msg, get_index0 v = Throw (Error msg)) \/ get_index0 v = Ok JUndefined.
Proof. destruct v as [| | | | |[|c s]| |]; cbn; try discriminate; eauto. Qed.

Lemma openai_outcome_lacking completion choices :
  get_prop completion "choices" = Ok choices ->
  lacks_first_choice completion = true ->
  openai_outcome (Ok completion)
  = Throw (Error
      match choices with
      | JUndefined => "Cannot read properties of undefined (reading '0')"
      | JNull => "Cannot read properties of null (reading '0')"
      | _ =>
          match get_index0 choices with
          | Ok JNull => "Cannot read properties of null (reading 'message')"
          | Ok (JBool _ | JNum _ | JNaN | JStr _) =>
              "Cannot read properties of undefined (reading 'content')"
          | _ => "Cannot read properties of undefined (reading 'message')"
          end
      end).
Proof.
  intros Hchoices. unfold lacks_first_choice, openai_outcome. rewrite Hchoices.
  assert (forall first,
            get_index0 choices = Ok first -> falsy first = true ->
            match get_prop first "message" with
            | Ok message => get_prop message "content"
            | Throw e => Throw e
            end
            = Throw (Error
                match first with
                | JNull => "Cannot read properties of null (reading 'message')"
                | JBool _ | JNum _ | JNaN | JStr _ =>
                    "Cannot read properties of undefined (reading 'content')"
                | _ => "Cannot read properties of undefined (reading 'message')"
                end)) as Hfirst.
  { intros first _ Hfalsy.
    destruct first as [| |b|z| |str| |]; try discriminate Hfalsy; reflexivity. }
  destruct (get_index0 choices) as [first|e] eqn:Hindex.
  - destruct (falsy choices) eqn:Hfalsy.
    + intros _.
      destruct choices as [| |b|z| |str| |]; try discriminate Hfalsy;
        try discriminate Hindex.
      * injection Hindex as <-. reflexivity.
      * injection Hindex as <-. reflexivity.
      * injection Hindex as <-. reflexivity.
      * destruct str; [|discriminate Hfalsy]. injection Hindex as <-. reflexivity.
    + cbn [orb]. intros Hlacks. rewrite (Hfirst first eq_refl Hlacks).
      by destruct choices; try discriminate Hindex.
  - intros _.
    destruct choices as [| |b|z| |[|c str]| |]; try discriminate Hindex;
      injection Hindex as <-; reflexivity.
Qed.

(** X9: the OpenAI branch reads [completion.choices[0].message.content]
    without a check, yet a response without choices or without a first
    choice does not escape the handler: the failing read throws the
    engine's TypeError inside the [try]; the request has been sent, the
    handler completes, and the client gets one error event with the
    generic message and, as details, the text of that TypeError, which
    names the value and the property of the failing read. *)
Theorem openai_malformed_response_reported
    provider_api socket_id data now w s completion choices :
  get_prop data "final" = Ok (JStr s) ->
  trim s ≠ [] ->
  get_prop data "model" = Ok (JStr (lit "gpt-3.5-turbo-16k")) ->
  (forall indexed prefs, userContexts w !! socket_id ≠ Some (CtxObject indexed prefs)) ->
  (forall r, provider_api (OpenAICreate r) = Ok completion) ->
  get_prop completion "choices" = Ok choices ->
  lacks_first_choice completion = true ->
  exists messages,
    fst (manageConversationHistory socket_id (trim s) (lit "user") now w) = Ok messages
    /\ on_transcript provider_api socket_id data now w
       = (Ok tt,
          sent
            (error_event socket_id
               (lit "An error occurred while processing your request.")
               (JStr (lit
                  match choices with
                  | JUndefined => "Cannot read properties of undefined (reading '0')"
                  | JNull => "Cannot read properties of null (reading '0')"
                  | _ =>
                      match get_index0 choices with
                      | Ok JNull => "Cannot read properties of null (reading 'message')"
                      | Ok (JBool _ | JNum _ | JNaN | JStr _) =>
                          "Cannot read properties of undefined (reading 'content')"
                      | _ => "Cannot read properties of undefined (reading 'message')"
                      end
                  end)))
            (logged
               (OpenAICreate
                  {| o_messages := turn_object <$> messages;
                     o_model := JStr (lit "gpt-3.5-turbo-16k");
                     o_temperature := Some (7 # 10);
                     o_max_tokens := Some 700;
                     o_presence_penalty := 6 # 10;
                     o_frequency_penalty := 3 # 10;
                     o_top_p := 9 # 10;
                     o_stream := false |})
               (with_contexts (<[socket_id := CtxArray messages]> (userContexts w)) w))).
Proof.
  intros Hfinal Hnonblank Hmodel Hshape Hsettled Hchoices Hlacks.
  destruct (manageConversationHistory_ok socket_id (trim s) (lit "user") now w Hshape)
    as (messages & Happend & Hlast).
  exists messages. rewrite Happend. split; [done|].
  rewrite (on_transcript_run _ _ _ _ _ _ _ _ _ Hfinal Hnonblank Hmodel Happend).
  rewrite (generate_openai _ _ (select_model (JStr (lit "gpt-3.5-turbo-16k")))
             (OwnConfig gpt_config) (JStr (lit "openai")) _ eq_refl eq_refl eq_refl).
  unfold openai_request_for. rewrite Hsettled.
  rewrite (openai_outcome_lacking completion choices Hchoices Hlacks).
  by rewrite handleAIError_plain.
Qed.

Lemma openai_malformed_response_reported_witness :
  outbox (exec (on_transcript (fun _ => Ok (JObject [ (lit "choices", JArray []) ]))
                  (lit "s1")
                  (JObject [ (lit "final", JStr (lit "hello"));
                             (lit "model", JStr (lit "gpt-3.5-turbo-16k")) ]) 1000)
            init_world)
  = [ error_event (lit "s1") (lit "An error occurred while processing your request.")
        (JStr (lit "Cannot read properties of undefined (reading 'message')")) ].
Proof.
  destruct (openai_malformed_response_reported
              (fun _ => Ok (JObject [ (lit "choices", JArray []) ])) (lit "s1")
              (JObject [ (lit "final", JStr (lit "hello"));
                         (lit "model", JStr (lit "gpt-3.5-turbo-16k")) ]) 1000 init_world
              (lit "hello") (JObject [ (lit "choices", JArray []) ]) (JArray []))
    as (messages & _ & Hrun).
  - reflexivity.
  - vm_compute. discriminate.
  - reflexivity.
  - intros indexed prefs. cbn [init_world userContexts]. by rewrite lookup_empty.
  - reflexivity.
  - reflexivity.
  - reflexivity.
  - unfold exec. rewrite Hrun. reflexivity.
Defined.

(** ** The text that is recorded *)

Lemma trim_start_split s :
  exists pre, s = pre ++ trim_start s /\ Forall (fun c => is_white_space c = true) pre.
Proof.
  induction s as [|c s (pre & IH & Hpre)]; [by exists []|].
  cbn [trim_start]. destruct (is_white_space c) eqn:Hc.
  - exists (c :: pre). split; [by rewrite IH at 1 | by constructor].
  - by exists [].
Qed.

Lemma trim_start_head s c rest :
  trim_start s = c :: rest -> is_white_space c = false.
Proof.
  induction s as [|d s IH]; [done|]. cbn [trim_start].
  destruct (is_white_space d) eqn:Hd; [done|]. by intros [= <- _].
Qed.

Lemma trim_split s :
  exists pre post,
    s = pre ++ trim s ++ post
    /\ Forall (fun c => is_white_space c = true) pre
    /\ Forall (fun c => is_white_space c = true) post.
Proof.
  destruct (trim_start_split s) as (pre & Hs & Hpre).
  destruct (trim_start_split (reverse (trim_start s))) as (post & Hr & Hpost).
  exists pre, (reverse post). split; [|split; [done | by apply Forall_reverse]].
  unfold trim. rewrite <- reverse_app, <- Hr, reverse_involutive. exact Hs.
Qed.

Lemma trim_last s c : last (trim s) = Some c -> is_white_space c = false.
Proof.
  unfold trim. rewrite last_reverse.
  destruct (trim_start (reverse (trim_start s))) as [|d rest] eqn:E; [done|].
  intros [= <-]. by eapply trim_start_head.
Qed.

Lemma trim_head s c : head (trim s) = Some c -> is_white_space c = false.
Proof.
  intros Hhead.
  destruct (trim_start_split (reverse (trim_start s))) as (post & Hr & Hpost).
  assert (trim_start s = trim s ++ reverse post) as Hu.
  { unfold trim. by rewrite <- reverse_app, <- Hr, reverse_involutive. }
  destruct (trim s) as [|d rest]; [done|]. injection Hhead as ->.
  by eapply trim_start_head.
Qed.

(** X10: the text the handler records is the received text without its
    leading and trailing whitespace and line terminators: only such
    characters are cut, and what is kept neither starts nor ends with
    one. *)
Theorem recorded_text_is_trimmed provider_api socket_id data now w s :
  get_prop data "final" = Ok (JStr s) ->
  trim s ≠ [] ->
  (forall indexed prefs, userContexts w !! socket_id ≠ Some (CtxObject indexed prefs)) ->
  exists messages text pre post,
    userContexts (exec (on_transcript provider_api socket_id data now) w) !! socket_id
    = Some (CtxArray messages)
    /\ last messages = Some (user_turn text now)
    /\ s = pre ++ text ++ post
    /\ Forall (fun c => is_white_space c = true) pre
    /\ Forall (fun c => is_white_space c = true) post
    /\ (exists c, head text = Some c /\ is_white_space c = false)
    /\ (exists c, last text = Some c /\ is_white_space c = false).
Proof.
  intros Hfinal Hnonblank Hshape. unfold exec.
  destruct (get_prop_total data "final" _ "model" Hfinal) as [model Hmodel].
  destruct (manageConversationHistory_ok socket_id (trim s) (lit "user") now w Hshape)
    as (messages & Happend & Hlast).
  destruct (trim_split s) as (pre & post & Hs & Hpre & Hpost).
  exists messages, (trim s), pre, post.
  split; [|split; [done|split; [done|split; [done|split; [done|split]]]]].
  - rewrite (on_transcript_run _ _ _ _ _ _ _ _ _ Hfinal Hnonblank Hmodel Happend).
    destruct (generate_effects provider_api messages (select_model model)
                (with_contexts (<[socket_id:=CtxArray messages]> (userContexts w)) w))
      as (r & reqs & -> & _).
    destruct r as [response|error].
    + cbn [snd sent extended with_contexts userContexts]. apply lookup_insert_eq.
    + destruct (handleAIError_emits error socket_id
                  (extended reqs []
                     (with_contexts (<[socket_id:=CtxArray messages]> (userContexts w)) w)))
        as [message ->].
      cbn [snd sent extended with_contexts userContexts]. apply lookup_insert_eq.
  - destruct (head (trim s)) as [c|] eqn:Hhead.
    + exists c. split; [done | by eapply trim_head].
    + by destruct (trim s).
  - destruct (last (trim s)) as [c|] eqn:Hl.
    + exists c. split; [done | by eapply trim_last].
    + by apply last_None in Hl.
Qed.

Lemma recorded_text_is_trimmed_witness :
  exists messages text pre post,
    userContexts (exec (on_transcript (mock_provider "hi there") (lit "s1")
                          (JObject [ (lit "final", JStr (lit "  hello there ")) ]) 1000)
                    init_world) !! lit "s1"
    = Some (CtxArray messages)
    /\ last messages = Some (user_turn text 1000)
    /\ lit "  hello there " = pre ++ text ++ post
    /\ Forall (fun c => is_white_space c = true) pre
    /\ Forall (fun c => is_white_space c = true) post
    /\ (exists c, head text = Some c /\ is_white_space c = false)
    /\ (exists c, last text = Some c /\ is_white_space c = false).
Proof.
  apply (recorded_text_is_trimmed (mock_provider "hi there") (lit "s1")
           (JObject [ (lit "final", JStr (lit "  hello there ")) ]) 1000 init_world
           (lit "  hello there ")).
  - reflexivity.
  - vm_compute. discriminate.
  - intros indexed prefs. cbn [init_world userContexts]. by rewrite lookup_empty.
Defined.

(** ** load-context *)

(** X11: load-context always completes, emits nothing and sends nothing;
    it keeps the turns that were stored, but only an object or an array
    is accepted (null, though of type object, is not), and what it stores
    is then the merged object, never an array. *)
Theorem load_context_keeps_the_turns socket_id savedContext w :
  let w' := exec (on_load_context socket_id savedContext) w in
  fst (on_load_context socket_id savedContext w) = Ok tt
  /\ stored_turns (userContexts w' !! socket_id)
     = stored_turns (userContexts w !! socket_id)
  /\ upstream w' = upstream w
  /\ outbox w' = outbox w
  /\ match savedContext with
     | JArray _ | JObject _ =>
         userContexts w' !! socket_id
         = Some (CtxObject (stored_turns (userContexts w !! socket_id)) savedContext)
     | _ => w' = w
     end.
Proof.
  cbn zeta. unfold exec, on_load_context.
  destruct savedContext as [| |b|z| |str|items|fields];
    try (cbn; by repeat split);
    try (destruct b; cbn; by repeat split);
    try (cbn [truthy typeof_object andb]; rewrite andb_false_r; by repeat split).
  - unfold bind, get_contexts, put_contexts. cbn [truthy typeof_object andb fst snd
      userContexts upstream outbox]. rewrite lookup_insert_eq.
    by destruct (userContexts w !! socket_id) as [[turns|indexed prefs]|].
  - unfold bind, get_contexts, put_contexts. cbn [truthy typeof_object andb fst snd
      userContexts upstream outbox]. rewrite lookup_insert_eq.
    by destruct (userContexts w !! socket_id) as [[turns|indexed prefs]|].
Qed.

(** X12: of two load-context events the later one wins: its payload
    replaces the earlier preferences, and the world is the one the later
    event alone would have left. *)
Theorem load_context_last_wins socket_id first second w :
  truthy second && typeof_object second = true ->
  exec (on_load_context socket_id second) (exec (on_load_context socket_id first) w)
  = exec (on_load_context socket_id second) w.
Proof.
  intros Haccept. unfold exec, on_load_context. rewrite Haccept.
  destruct (truthy first && typeof_object first); [|done].
  unfold bind, get_contexts, put_contexts.
  cbn [fst snd userContexts upstream outbox].
  rewrite lookup_insert_eq, insert_insert_eq.
  by destruct (userContexts w !! socket_id) as [[turns|indexed prefs]|].
Qed.

Lemma load_context_last_wins_witness :
  exec (on_load_context (lit "s1") (JObject [ (lit "theme", JStr (lit "light")) ]))
    (exec (on_load_context (lit "s1") (JArray [ JNum 1 ])) (one_hello 1000))
  = exec (on_load_context (lit "s1") (JObject [ (lit "theme", JStr (lit "light")) ]))
      (one_hello 1000).
Proof.
  apply (load_context_last_wins (lit "s1") (JArray [ JNum 1 ])
           (JObject [ (lit "theme", JStr (lit "light")) ]) (one_hello 1000)).
  reflexivity.
Defined.

(** ** The cleanup on every entry *)


(** X14: an entry that load-context has turned into an object is never
    removed by the cleanup, however old its turns are. *)
Theorem merged_context_is_never_swept (now : Z) w socket_id indexed prefs :
  userContexts w !! socket_id = Some (CtxObject indexed prefs) ->
  userContexts (exec (sweep now) w) !! socket_id = Some (CtxObject indexed prefs).
Proof.
  intros Hctx. unfold exec, sweep, bind, get_contexts, put_contexts.
  cbn [snd userContexts]. by rewrite sweep_contexts_lookup, Hctx.
Qed.

Lemma merged_context_is_never_swept_witness :
  userContexts (exec (sweep 999999999999) merged_world) !! lit "s1"
  = Some (CtxObject [system_turn; hello_turn 1000]
            (JObject [ (lit "theme", JStr (lit "dark")) ])).
Proof.
  apply (merged_context_is_never_swept 999999999999 merged_world (lit "s1")).
  reflexivity.
Defined.

(** X15: an append restarts the hour: after an append at time [t] the
    cleanup at time [now] removes the connection's context exactly when
    [now - t] is more than one hour, whatever the age of the older
    turns. *)
Theorem append_restarts_the_hour userId message role (t now : Z) w :
  (forall indexed prefs, userContexts w !! userId ≠ Some (CtxObject indexed prefs)) ->
  let w1 := exec (manageConversationHistory userId message role t) w in
  (userContexts (exec (sweep now) w1) !! userId = None <-> now - t > hour)
  /\ (now - t <= hour ->
      userContexts (exec (sweep now) w1) !! userId = userContexts w1 !! userId).
Proof.
  intros Hshape. cbn zeta.
  destruct (manageConversationHistory_ok userId message role t w Hshape)
    as (messages & Happend & Hlast).
  unfold exec at 2 4 5. rewrite Happend. cbn [snd].
  unfold exec, sweep, bind, get_contexts, put_contexts.
  cbn [snd with_contexts userContexts]. rewrite sweep_contexts_lookup, lookup_insert_eq.
  unfold stale, lastMessage. rewrite Hlast. cbn [timestamp].
  destruct (Z.gtb_spec (now - t) hour) as [Hgt|Hle].
  - split; [split; [lia | done] | lia].
  - split; [split; [done | lia] | done].
Qed.

Lemma append_restarts_the_hour_witness :
  userContexts
    (exec (sweep 3700000)
       (exec (manageConversationHistory (lit "s1") (lit "again") (lit "user") 200000)
          (one_hello 1000))) !! lit "s1"
  = userContexts
      (exec (manageConversationHistory (lit "s1") (lit "again") (lit "user") 200000)
         (one_hello 1000)) !! lit "s1".
Proof.
  refine (proj2 (append_restarts_the_hour (lit "s1") (lit "again") (lit "user")
                   200000 3700000 (one_hello 1000) _) _).
  - intros indexed prefs. vm_compute. discriminate.
  - unfold hour. lia.
Defined.

(** ** Connections do not interfere *)

(** X16: an append, a transcript, a reset and a load-context of one
    connection leave the stored context of every other connection as it
    was. *)
Theorem handlers_touch_only_their_connection
    provider_api socket_id other data savedContext message role now w :
  other ≠ socket_id ->
  userContexts (exec (manageConversationHistory socket_id message role now) w) !! other
  = userContexts w !! other
  /\ userContexts (exec (on_transcript provider_api socket_id data now) w) !! other
     = userContexts w !! other
  /\ userContexts (exec (on_reset_context socket_id) w) !! other
     = userContexts w !! other
  /\ userContexts (exec (on_load_context socket_id savedContext) w) !! other
     = userContexts w !! other.
Proof.
  intros Hother. split; [|split; [|split]].
  - unfold exec.
    destruct (manageConversationHistory_cases socket_id message role now w)
      as [(messages & -> & _) | ->]; [|done].
    cbn [snd with_contexts userContexts]. by rewrite lookup_insert_ne.
  - destruct (on_transcript_contexts provider_api socket_id data now w)
      as [-> | (s & messages & _ & _ & ->)]; [done|].
    by rewrite lookup_insert_ne.
  - unfold exec, on_reset_context, bind, get_contexts, put_contexts, emit.
    cbn [snd userContexts]. by rewrite lookup_delete_ne.
  - unfold exec, on_load_context.
    destruct (truthy savedContext && typeof_object savedContext); [|done].
    unfold bind, get_contexts, put_contexts. cbn [snd userContexts].
    by rewrite lookup_insert_ne.
Qed.

Lemma handlers_touch_only_their_connection_witness :
  userContexts (exec (on_reset_context (lit "s2")) (one_hello 1000)) !! lit "s1"
  = userContexts (one_hello 1000) !! lit "s1".
Proof.
  refine (proj1 (proj2 (proj2
    (handlers_touch_only_their_connection (mock_provider "hi there") (lit "s2") (lit "s1")
       JNull JNull (lit "x") (lit "user") 2000 (one_hello 1000) _)))).
  vm_compute. discriminate.
Defined.

(** ** Below and at the cap *)

(** X17: up to ten appends on a fresh connection drop nothing: the
    context is the system turn followed by every appended turn in the
    order of the calls. *)
Theorem short_history_is_kept_whole userId apps w :
  userContexts w !! userId = None ->
  apps ≠ [] ->
  (length apps <= 10)%nat ->
  append_all userId apps w
  = (Ok tt,
     with_contexts
       (<[userId := CtxArray (system_turn :: (appended <$> apps))]> (userContexts w)) w).
Proof.
  intros Hnone Hne Hlen. rewrite (append_all_fresh _ _ _ Hnone Hne).
  by rewrite lastn_short by (by rewrite length_fmap).
Qed.

Lemma short_history_is_kept_whole_witness :
  append_all (lit "s1") (take 10 twelve_appends) init_world
  = (Ok tt,
     with_contexts
       (<[lit "s1" := CtxArray (system_turn :: (appended <$> take 10 twelve_appends))]>
          (userContexts init_world)) init_world).
Proof.
  apply (short_history_is_kept_whole (lit "s1") (take 10 twelve_appends) init_world).
  - reflexivity.
  - discriminate.
  - vm_compute. lia.
Defined.

Lemma generate_requests provider_api messages selectedModel w :
  exists r reqs,
    generate provider_api messages selectedModel w = (r, extended reqs [] w)
    /\ Forall (fun req => length (request_messages req) = length messages) reqs.
Proof.
  destruct (AI_MODELS_get selectedModel) as [modelConfig|e] eqn:Hget.
  - destruct (member_provider modelConfig) as [provider|e] eqn:Hprov.
    + destruct (strict_eq_str provider (lit "groq")) eqn:Hgroq.
      * eexists _, [groq_request_for messages modelConfig]. split.
        -- unfold generate. rewrite Hget, bind_lift_ok, Hprov, bind_lift_ok, Hgroq.
           by rewrite handleGroqResponse_run, logged_extended.
        -- repeat constructor. cbn. apply length_fmap.
      * eexists _, [openai_request_for messages selectedModel modelConfig]. split.
        -- by rewrite (generate_openai _ _ _ _ _ _ Hget Hprov Hgroq), logged_extended.
        -- repeat constructor. cbn. apply length_fmap.
    + exists (Throw e), []. split; [|done].
      unfold generate. by rewrite Hget, bind_lift_ok, Hprov, bind_lift_throw, extended_nil.
  - exists (Throw e), []. split; [|done].
    unfold generate. by rewrite Hget, bind_lift_throw, extended_nil.
Qed.

(** X18: whatever the length of the conversation, a request built from a
    context that is fresh or a stored non-empty array carries between 2
    and 11 messages: the first stored turn and at most the ten latest
    others, the new user turn among them. *)
Theorem upstream_window_is_bounded provider_api socket_id data now w s :
  get_prop data "final" = Ok (JStr s) ->
  trim s ≠ [] ->
  userContexts w !! socket_id = None
  \/ (exists h rest, userContexts w !! socket_id = Some (CtxArray (h :: rest))) ->
  exists reqs,
    upstream (exec (on_transcript provider_api socket_id data now) w) = upstream w ++ reqs
    /\ Forall (fun req => (2 <= length (request_messages req) <= 11)%nat) reqs.
Proof.
  intros Hfinal Hnonblank Hctx. unfold exec.
  destruct (get_prop_total data "final" _ "model" Hfinal) as [model Hmodel].
  assert (exists messages w1,
            manageConversationHistory socket_id (trim s) (lit "user") now w
            = (Ok messages, w1)
            /\ upstream w1 = upstream w
            /\ (2 <= length messages <= 11)%nat) as (messages & w1 & Happend & Hup & Hlen).
  { destruct Hctx as [Hnone | (h & rest & Hsome)].
    - eexists _, _. split; [by apply manageConversationHistory_fresh|].
      split; [done | cbn; lia].
    - eexists _, _. split; [by eapply manageConversationHistory_array|].
      split; [done|]. cbn [length]. rewrite lastn_length, length_app. cbn [length]. lia. }
  rewrite (on_transcript_run _ _ _ _ _ _ _ _ _ Hfinal Hnonblank Hmodel Happend).
  destruct (generate_requests provider_api messages (select_model model) w1)
    as (r & reqs & -> & Hreqs).
  exists reqs. split.
  - destruct r as [response|error].
    + cbn [snd sent extended upstream]. by rewrite Hup.
    + destruct (handleAIError_emits error socket_id (extended reqs [] w1)) as [message ->].
      cbn [snd sent extended upstream]. by rewrite Hup.
  - eapply Forall_impl; [exact Hreqs|]. intros req Hreq. cbn beta in Hreq. lia.
Qed.

Lemma upstream_window_is_bounded_witness :
  exists reqs,
    upstream (exec (on_transcript (mock_provider "hi there") (lit "s1")
                      (JObject [ (lit "final", JStr (lit "again")) ]) 2000)
                (one_hello 1000))
    = upstream (one_hello 1000) ++ reqs
    /\ Forall (fun req => (2 <= length (request_messages req) <= 11)%nat) reqs.
Proof.
  apply (upstream_window_is_bounded (mock_provider "hi there") (lit "s1")
           (JObject [ (lit "final", JStr (lit "again")) ]) 2000 (one_hello 1000)
           (lit "again")).
  - reflexivity.
  - vm_compute. discriminate.
  - right. exists system_turn, [hello_turn 1000]. reflexivity.
Defined.

(** ** Runs of the server *)

Lemma on_transcript_store provider_api socket_id data now w :
  userContexts (exec (on_transcript provider_api socket_id data now) w) = userContexts w
  \/ exists s,
       trim s ≠ []
       /\ userContexts (exec (on_transcript provider_api socket_id data now) w)
          = userContexts
              (exec (manageConversationHistory socket_id (trim s) (lit "user") now) w).
Proof.
  destruct (on_transcript_contexts provider_api socket_id data now w)
    as [Hsame | (s & messages & Hfinal & Hlast & Hctx)]; [by left|].
  destruct (decide (trim s = [])) as [Hblank|Hnonblank].
  - left. unfold exec.
    destruct (get_prop_total data "final" _ "model" Hfinal) as [model Hmodel].
    unfold on_transcript. rewrite Hmodel, Hfinal.
    unfold bind at 1 2 3. unfold lift at 1 2.
    destruct s as [|c s]; [done|]. cbn [truthy call_trim]. by rewrite Hblank.
  - destruct (get_prop_total data "final" _ "model" Hfinal) as [model Hmodel].
    destruct (manageConversationHistory_cases socket_id (trim s) (lit "user") now w)
      as [(messages' & Happend & _) | Hthrow].
    + right. exists s. split; [done|]. unfold exec. rewrite Happend.
      rewrite (on_transcript_run _ _ _ _ _ _ _ _ _ Hfinal Hnonblank Hmodel Happend).
      destruct (generate_effects provider_api messages' (select_model model)
                  (with_contexts (<[socket_id:=CtxArray messages']> (userContexts w)) w))
        as (r & reqs & -> & _).
      destruct r as [response|error]; [done|].
      by destruct (handleAIError_emits error socket_id
                     (extended reqs []
                        (with_contexts (<[socket_id:=CtxArray messages']> (userContexts w))
                           w))) as [message ->].
    + left. unfold exec.
      rewrite (on_transcript_append_fails _ _ _ _ _ _ _ _ _ Hfinal Hnonblank Hmodel Hthrow).
      by destruct (handleAIError_emits (Error "context.push is not a function")
                     socket_id w) as [message ->].
Qed.

Lemma window_shaped_append tail text now :
  text ≠ [] ->
  Forall (fun t => role t = lit "user" /\ content t ≠ [] /\ timestamp t ≠ None) tail ->
  window_shaped (system_turn :: lastn 10 (tail ++ [user_turn text now])).
Proof.
  intros Htext Htail. exists (lastn 10 (tail ++ [user_turn text now])).
  split; [done|]. split.
  - rewrite lastn_length, length_app. cbn [length]. lia.
  - apply Forall_lastn, Forall_app. split; [done|]. by repeat constructor.
Qed.

Lemma append_keeps_shape socket_id text now w :
  text ≠ [] ->
  (forall k c, userContexts w !! k = Some c -> context_shaped c) ->
  forall k c,
    userContexts (exec (manageConversationHistory socket_id text (lit "user") now) w) !! k
    = Some c ->
    context_shaped c.
Proof.
  intros Htext Hshaped k c. unfold exec.
  destruct (userContexts w !! socket_id) as [[turns|indexed prefs]|] eqn:Hctx.
  - destruct (Hshaped _ _ Hctx) as (tail & -> & _ & Htail).
    rewrite (manageConversationHistory_array _ _ _ _ _ _ _ Hctx).
    cbn [snd with_contexts userContexts].
    destruct (decide (socket_id = k)) as [->|Hne].
    + rewrite lookup_insert_eq. intros [= <-]. by apply window_shaped_append.
    + rewrite lookup_insert_ne by done. apply Hshaped.
  - rewrite (manageConversationHistory_object _ _ _ _ _ _ _ Hctx). apply Hshaped.
  - rewrite (manageConversationHistory_fresh _ _ _ _ _ Hctx).
    cbn [snd with_contexts userContexts].
    destruct (decide (socket_id = k)) as [->|Hne].
    + rewrite lookup_insert_eq. intros [= <-].
      by apply (window_shaped_append [] text now Htext).
    + rewrite lookup_insert_ne by done. apply Hshaped.
Qed.

Lemma handle_keeps_shape provider_api e w :
  (forall k c, userContexts w !! k = Some c -> context_shaped c) ->
  forall k c,
    userContexts (exec (handle provider_api e) w) !! k = Some c -> context_shaped c.
Proof.
  intros Hshaped k c. destruct e as [socket_id data now|socket_id|socket_id saved|socket_id|now];
    cbn [handle].
  - destruct (on_transcript_store provider_api socket_id data now w)
      as [-> | (s & Hnonblank & ->)]; [apply Hshaped|].
    by apply append_keeps_shape.
  - unfold exec, on_reset_context, bind, get_contexts, put_contexts, emit.
    cbn [snd userContexts]. intros Hk%lookup_delete_Some. by eapply Hshaped, Hk.
  - unfold exec, on_load_context.
    destruct (truthy saved && typeof_object saved); [|apply Hshaped].
    unfold bind, get_contexts, put_contexts. cbn [snd userContexts].
    destruct (decide (socket_id = k)) as [->|Hne].
    + rewrite lookup_insert_eq. intros [= <-].
      destruct (userContexts w !! k) as [[turns|indexed prefs]|] eqn:Hctx.
      * right. exact (Hshaped _ _ Hctx).
      * exact (Hshaped _ _ Hctx).
      * by left.
    + rewrite lookup_insert_ne by done. apply Hshaped.
  - unfold exec, on_disconnect_timeout, bind, get_contexts, put_contexts.
    cbn [snd userContexts]. intros Hk%lookup_delete_Some. by eapply Hshaped, Hk.
  - unfold exec, sweep, bind, get_contexts, put_contexts. cbn [snd userContexts].
    rewrite sweep_contexts_lookup.
    destruct (userContexts w !! k) as [c'|] eqn:Hctx; [|done].
    destruct (stale now c'); [done|]. intros [= <-]. exact (Hshaped _ _ Hctx).
Qed.

(** X19: in every world the server reaches from its start by transcript,
    reset, load-context, disconnect-timeout and cleanup events, each
    stored array of turns is the system turn followed by between one and ten user turns, all
    timestamped and with a non-empty text; a merged object holds the
    turns of such an array, or none.  No turn of another role is ever
    stored. *)
Theorem reachable_contexts_are_window_shaped provider_api events k c :
  userContexts (run_events provider_api events init_world) !! k = Some c ->
  context_shaped c.
Proof.
  unfold run_events.
  assert (forall w,
            (forall k c, userContexts w !! k = Some c -> context_shaped c) ->
            forall k c,
              userContexts (fold_left (fun w e => exec (handle provider_api e) w) events w)
                !! k = Some c -> context_shaped c) as Hrun.
  { induction events as [|e events IH]; intros w Hshaped; [exact Hshaped|].
    cbn [fold_left]. apply IH. by apply handle_keeps_shape. }
  apply Hrun. intros k' c'. cbn [init_world userContexts]. by rewrite lookup_empty.
Qed.

Lemma reachable_contexts_are_window_shaped_witness :
  context_shaped (CtxArray [system_turn; user_turn (lit "hello") 1000]).
Proof.
  apply (reachable_contexts_are_window_shaped (mock_provider "hi there")
           [ Transcript (lit "s1") (JObject [ (lit "final", JStr (lit "hello")) ]) 1000;
             CleanupTick 2000 ]
           (lit "s1")).
  reflexivity.
Defined.

(** X20: the Groq model asked for by name: the one request is the Groq
    call with the turns reduced to role and content, the fixed model id,
    the parameters of the table entry and top_p 1; when the response has
    a first choice, its content is sent back with that id. *)
Theorem groq_model_is_served provider_api socket_id data now w s text :
  get_prop data "final" = Ok (JStr s) ->
  trim s ≠ [] ->
  get_prop data "model" = Ok (JStr (lit "llama-3.1-70b-versatile")) ->
  (forall indexed prefs, userContexts w !! socket_id ≠ Some (CtxObject indexed prefs)) ->
  (forall r, groq_outcome (provider_api (GroqCreate r)) = Ok text) ->
  exists messages,
    fst (manageConversationHistory socket_id (trim s) (lit "user") now w) = Ok messages
    /\ upstream (exec (on_transcript provider_api socket_id data now) w)
       = upstream w
         ++ [ GroqCreate
                {| g_messages :=
                     (fun msg => JObject [ (lit "role", JStr (role msg));
                                           (lit "content", JStr (content msg)) ])
                       <$> messages;
                   g_model := lit "llama-3.1-70b-versatile";
                   g_temperature := Some 1%Q;
                   g_max_tokens := Some 1024;
                   g_top_p := 1;
                   g_stream := false |} ]
    /\ outbox (exec (on_transcript provider_api socket_id data now) w)
       = outbox w ++ [ reply_event socket_id text (JStr (lit "llama-3.1-70b-versatile")) ].
Proof.
  intros Hfinal Hnonblank Hmodel Hshape Hsettled.
  destruct (manageConversationHistory_ok socket_id (trim s) (lit "user") now w Hshape)
    as (messages & Happend & Hlast).
  exists messages. rewrite Happend. split; [done|]. unfold exec.
  rewrite (on_transcript_groq_run _ _ _ _ _ _ _ _ _ Hfinal Hnonblank Hmodel
             (or_intror eq_refl) Happend).
  cbn zeta. unfold groq_request_for. rewrite Hsettled. split; reflexivity.
Qed.

Lemma groq_model_is_served_witness :
  exists messages,
    fst (manageConversationHistory (lit "s1") (trim (lit "hello")) (lit "user") 1000
           init_world) = Ok messages
    /\ upstream (exec (on_transcript (mock_provider "hi there") (lit "s1")
                         (JObject [ (lit "final", JStr (lit "hello"));
                                    (lit "model", JStr (lit "llama-3.1-70b-versatile")) ])
                         1000) init_world)
       = upstream init_world
         ++ [ GroqCreate
                {| g_messages :=
                     (fun msg => JObject [ (lit "role", JStr (role msg));
                                           (lit "content", JStr (content msg)) ])
                       <$> messages;
                   g_model := lit "llama-3.1-70b-versatile";
                   g_temperature := Some 1%Q;
                   g_max_tokens := Some 1024;
                   g_top_p := 1;
                   g_stream := false |} ]
    /\ outbox (exec (on_transcript (mock_provider "hi there") (lit "s1")
                       (JObject [ (lit "final", JStr (lit "hello"));
                                  (lit "model", JStr (lit "llama-3.1-70b-versatile")) ])
                       1000) init_world)
       = outbox init_world
         ++ [ reply_event (lit "s1") (JStr (lit "hi there"))
                (JStr (lit "llama-3.1-70b-versatile")) ].
Proof.
  apply (groq_model_is_served (mock_provider "hi there") (lit "s1")
           (JObject [ (lit "final", JStr (lit "hello"));
                      (lit "model", JStr (lit "llama-3.1-70b-versatile")) ])
           1000 init_world (lit "hello") (JStr (lit "hi there"))).
  - reflexivity.
  - vm_compute. discriminate.
  - reflexivity.
  - intros indexed prefs. cbn [init_world userContexts]. by rewrite lookup_empty.
  - reflexivity.
Defined.
